(** * A shallow embedding of [poliastro.plotting._base]

    [BaseOrbitPlotter] and [Mixin2D] from
    [src/poliastro/plotting/_base.py].  Lengths, epochs and vector
    components are modelled as real numbers (exact arithmetic); the
    plotter object is a record threaded through a state-and-exception
    monad in which, as in Python, mutations made before an exception is
    raised are kept.  The abstract drawing hooks a concrete backend
    implements are a type class. *)

Set Warnings "-register-all".
From Stdlib Require Import Reals Lra Psatz List String Arith Lia RelationClasses.
Import ListNotations.

Open Scope R_scope.

(** ** Vectors *)

Record Vec3 := mkVec3 { vx : R; vy : R; vz : R }.

Definition dot (a b : Vec3) : R := vx a * vx b + vy a * vy b + vz a * vz b.

Definition vscale (k : R) (a : Vec3) : Vec3 := mkVec3 (k * vx a) (k * vy a) (k * vz a).

Definition vsub (a b : Vec3) : Vec3 := mkVec3 (vx a - vx b) (vy a - vy b) (vz a - vz b).

Definition vadd (a b : Vec3) : Vec3 := mkVec3 (vx a + vx b) (vy a + vy b) (vz a + vz b).

(** [poliastro.util.norm] *)
Definition norm (a : Vec3) : R := sqrt (dot a a).

(** ** Python values used by the module *)

(** [str(label)] for a label that is [None] or a string. *)
Definition py_str (label : option string) : string :=
  match label with
  | None => "None"
  | Some s => s
  end.

(** The exceptions the module raises or lets through. *)
Inductive Exc :=
| ValueError (msg : string)
| NotImplementedError (msg : string)
| AttributeError          (* [None.R], [self._frame] before it is set *)
| IndexError              (* [colors[0]], [coordinates[0]] on an empty sequence *)
| ReductionError          (* numpy [.min()] of a zero-size array (a ValueError) *)
| HookError.              (* whatever a backend hook or a collaborator raises *)

Inductive Res (A : Type) := Ok (a : A) | Err (e : Exc).
Arguments Ok {A} a.
Arguments Err {A} e.

(** ** Bodies, trajectories and the plotter object *)

(** A [poliastro.bodies.Body]; [body_id] stands for the object's
    identity, compared by Python's [is]. *)
Inductive Body := mkBody
  { body_id : nat; body_name : string; body_R : R; body_parent : option Body }.

(** [x is y] for two values that are a body or [None]. *)
Definition py_is (a b : option Body) : bool :=
  match a, b with
  | None, None => true
  | Some x, Some y => Nat.eqb (body_id x) (body_id y)
  | _, _ => false
  end.

Definition Color := string.

(** [class Trajectory(namedtuple(...))] *)
Record Trajectory := mkTrajectory
  { coordinates : list Vec3;
    position : option Vec3;
    label : string;
    colors : list Color;
    dashed : bool }.

Inductive Plane := EARTH_EQUATOR | EARTH_ECLIPTIC.

(** [np.inf * u.km] or a finite radius, in km. *)
Inductive ERadius := Fin (r : R) | Inf.

Definition Frame := (Vec3 * Vec3 * Vec3)%type.

(** The attributes of a plotter: those set by [BaseOrbitPlotter.__init__]
    and [Mixin2D]'s [_frame], absent until [_set_frame] stores it. *)
Record Plotter := mkPlotter
  { num_points : nat;
    trajectories : list Trajectory;
    attractor : option Body;
    plane : Plane;
    attractor_radius : ERadius;
    frame : option Frame }.

(** [BaseOrbitPlotter.__init__(num_points=150, *, plane=None)] *)
Definition init_plotter (n : nat) (pl : option Plane) : Plotter :=
  mkPlotter n [] None (match pl with Some p => p | None => EARTH_EQUATOR end) Inf None.

Definition default_plotter : Plotter := init_plotter 150 None.

Definition set_trajectories (st : Plotter) ts :=
  mkPlotter (num_points st) ts (attractor st) (plane st) (attractor_radius st) (frame st).
Definition set_attractor_field (st : Plotter) a :=
  mkPlotter (num_points st) (trajectories st) a (plane st) (attractor_radius st) (frame st).
Definition set_radius_field (st : Plotter) r :=
  mkPlotter (num_points st) (trajectories st) (attractor st) (plane st) r (frame st).
Definition set_frame_field (st : Plotter) f :=
  mkPlotter (num_points st) (trajectories st) (attractor st) (plane st) (attractor_radius st) f.

(** ** The state-and-exception monad *)

Definition M (A : Type) := Plotter -> Res A * Plotter.

Definition ret {A} (a : A) : M A := fun st => (Ok a, st).
Definition raise {A} (e : Exc) : M A := fun st => (Err e, st).
Definition bind {A B} (m : M A) (f : A -> M B) : M B :=
  fun st => match m st with
            | (Ok a, st') => f a st'
            | (Err e, st') => (Err e, st')
            end.
Definition get : M Plotter := fun st => (Ok st, st).
Definition modify (f : Plotter -> Plotter) : M unit := fun st => (Ok tt, f st).

(** The call of a hook or a collaborator, which returns or raises. *)
Definition lift {A} (r : Res A) : M A :=
  match r with Ok a => ret a | Err e => raise e end.

Notation "x <- m ;; k" := (bind m (fun x => k)) (at level 61, m at next level, right associativity).
Notation "m ;;; k" := (bind m (fun _ => k)) (at level 61, right associativity).

(** ** Collaborators

    The drawing hooks of [BaseOrbitPlotter], which a concrete backend
    implements; on the base class itself each raises
    [NotImplementedError] (see [base_hooks]).  Traces returned by the
    hooks are not modelled, only whether the hook returns or raises. *)
Class Backend := {
  _get_colors : option Color -> bool -> Res (list Color);
  _clear_attractor : Res unit;
  _draw_sphere : R -> Color -> string -> option Vec3 -> Res unit;
  _draw_point : R -> Color -> string -> option Vec3 -> Res unit;
  _plot_coordinates : list Vec3 -> string -> list Color -> bool -> Res unit
}.

Definition base_hooks : Backend := {|
  _get_colors _ _ := Err (NotImplementedError "");
  _clear_attractor := Err (NotImplementedError "");
  _draw_sphere _ _ _ _ := Err (NotImplementedError "");
  _draw_point _ _ _ _ := Err (NotImplementedError "");
  _plot_coordinates _ _ _ _ := Err (NotImplementedError "")
|}.

(** The objects the module consumes from the rest of the library: the
    orbit abstraction ([attractor], [change_plane], [sample], [r],
    [epoch], [pqw]), [str(body)], [BODY_COLORS], [generate_label],
    [Orbit.from_body_ephem], the period of [get_mean_elements] and the
    Cartesian position of a body at an epoch given by its ephemeris. *)
Class Collaborators (Orbit : Type) := {
  orbit_attractor : Orbit -> Body;
  orbit_change_plane : Orbit -> Plane -> Orbit;
  orbit_sample : Orbit -> nat -> list Vec3;
  orbit_r : Orbit -> Vec3;
  orbit_epoch : Orbit -> R;
  orbit_pqw : Orbit -> Frame;
  orbit_from_body_ephem : Body -> option R -> Orbit;
  body_str : Body -> string;
  BODY_COLORS : string -> option Color;
  generate_label : R -> option string -> string;
  mean_elements_period : Body -> R -> Res R;
  ephem_position : Body -> option Body -> Plane -> R -> Vec3
}.

(** [np.linspace(0, 1, n)]. *)
Definition linspace01 (n : nat) : list R :=
  match n with
  | O => []
  | S O => [0]
  | S m => map (fun k => INR k / INR m) (seq 0 n)
  end.

(** Modelled from the spec: [poliastro.util.time_range], not in this
    source tree, called as [time_range(start, periods=n, end=stop)]:
    [n] evenly spaced epochs from [start] to [stop], both included,
    [start + (stop - start) * np.linspace(0, 1, n)]. *)
Definition time_range (start : R) (n : nat) (stop : R) : list R :=
  map (fun s => start + (stop - start) * s) (linspace01 n).

(** Modelled from the spec: [Ephem.from_body(body, epochs, attractor=a,
    plane=pl).sample()], not in this source tree: the Cartesian
    coordinates of the body at each epoch of the range, in order. *)
Definition ephem_sample {Orbit : Type} `{Collaborators Orbit} (body : Body) (epochs : list R)
    (a : option Body) (pl : Plane) : list Vec3 :=
  map (ephem_position body a pl) epochs.

(** [label or str(body)] *)
Definition py_or_label (label : option string) (dflt : string) : string :=
  match label with
  | Some s => if String.eqb s "" then dflt else s
  | None => dflt
  end.

(** ** BaseOrbitPlotter *)

Section BaseOrbitPlotter.

Context {BE : Backend}.
Context {Orbit : Type} {CO : Collaborators Orbit}.

(** [_set_attractor] (and [set_attractor], which only calls it). *)
Definition set_attractor (a : option Body) : M unit :=
  st <- get ;;
  match attractor st with
  | None => modify (fun st => set_attractor_field st a)
  | Some cur =>
      if py_is a (Some cur) then ret tt
      else raise (NotImplementedError (String.append "Attractor has already been set to " (body_name cur)))
  end.

(** numpy's [.min()] of an array of reals. *)
Definition np_min (xs : list R) : Res R :=
  match xs with
  | [] => Err ReductionError
  | x :: xs => Ok (fold_left Rmin xs x)
  end.

(** [[coordinates.norm().min() for coordinates, *_ in self._trajectories]] *)
Fixpoint min_distances (ts : list Trajectory) : Res (list R) :=
  match ts with
  | [] => Ok []
  | t :: ts =>
      match np_min (map norm (coordinates t)) with
      | Err e => Err e
      | Ok d => match min_distances ts with
                | Err e => Err e
                | Ok ds => Ok (d :: ds)
                end
      end
  end.

(** Python's [min(ds or [0 * u.m])]. *)
Definition min_or_zero (ds : list R) : R :=
  match ds with
  | [] => 0
  | d :: ds => fold_left Rmin ds d
  end.

(** [_redraw_attractor] *)
Definition redraw_attractor : M unit :=
  st <- get ;;
  ds <- lift (min_distances (trajectories st)) ;;
  let min_distance := min_or_zero ds in
  match attractor st with
  | None => raise AttributeError
  | Some b =>
      let radius := Rmax (body_R b) (min_distance * 0.15) in
      modify (fun st => set_radius_field st (Fin radius)) ;;;
      let color := match BODY_COLORS (body_name b) with
                   | Some c => c | None => "#999999"%string end in
      lift _clear_attractor ;;;
      lift (_draw_sphere radius color (body_name b) None)
  end.

(** The radius [_plot_position] computes,
    [min(self._attractor_radius * 0.5, (norm(position) - self._attractor.R) * 0.5)];
    [min(inf, x)] is [x]. *)
Definition position_radius (ar : ERadius) (b : Body) (p : Vec3) : R :=
  match ar with
  | Inf => (norm p - body_R b) * 0.5
  | Fin a => Rmin (a * 0.5) ((norm p - body_R b) * 0.5)
  end.

(** [_plot_position] *)
Definition plot_position (p : Vec3) (lbl : string) (cs : list Color) : M unit :=
  st <- get ;;
  match attractor st with
  | None => raise AttributeError
  | Some b =>
      let radius := position_radius (attractor_radius st) b p in
      match cs with
      | [] => raise IndexError
      | c0 :: _ => lift (_draw_point radius c0 lbl (Some p))
      end
  end.

(** [__plot_coordinates_and_position] *)
Definition plot_coordinates_and_position (t : Trajectory) : M unit :=
  lift (_plot_coordinates (coordinates t) (label t) (colors t) (dashed t)) ;;;
  match position t with
  | None => ret tt
  | Some p => plot_position p (label t) (colors t)
  end.

(** [_redraw] *)
Fixpoint redraw_list (ts : list Trajectory) : M unit :=
  match ts with
  | [] => ret tt
  | t :: ts => plot_coordinates_and_position t ;;; redraw_list ts
  end.

Definition redraw : M unit := st <- get ;; redraw_list (trajectories st).

(** [__add_trajectory] *)
Definition add_trajectory (coords : list Vec3) (pos : option Vec3) (lbl : string)
    (cs : list Color) (dsh : bool) : M unit :=
  let t := mkTrajectory coords pos lbl cs dsh in
  modify (fun st => set_trajectories st (trajectories st ++ [t])) ;;;
  redraw_attractor ;;;
  plot_coordinates_and_position t.

(** [_plot_trajectory] (and [plot_trajectory]); the input is taken in
    Cartesian form, so [represent_as(CartesianRepresentation)] is the
    identity. *)
Definition plot_trajectory (coords : list Vec3) (lbl : option string)
    (color : option Color) (trail : bool) : M unit :=
  st <- get ;;
  match attractor st with
  | None => raise (ValueError (String.append "An attractor must be set up first, please use "
                               "set_attractor(Major_Body) or plot(orbit)"))
  | Some _ =>
      cs <- lift (_get_colors color trail) ;;
      add_trajectory coords None (py_str lbl) cs false
  end.

(** [_plot] (and [plot]). *)
Definition plot (orbit : Orbit) (lbl : option string) (color : option Color)
    (trail : bool) : M unit :=
  cs <- lift (_get_colors color trail) ;;
  set_attractor (Some (orbit_attractor orbit)) ;;;
  st <- get ;;
  let orbit := orbit_change_plane orbit (plane st) in
  let lbl := generate_label (orbit_epoch orbit) lbl in
  let coords := orbit_sample orbit (num_points st) in
  add_trajectory coords (Some (orbit_r orbit)) lbl cs true.

(** [_plot_body_orbit] (and [plot_body_orbit]). *)
Definition plot_body_orbit (body : Body) (epoch : R) (lbl : option string)
    (color : option Color) (trail : bool) : M unit :=
  let color := match color with
               | None => BODY_COLORS (body_name body)
               | Some c => Some c
               end in
  cs <- lift (_get_colors color trail) ;;
  set_attractor (body_parent body) ;;;
  period <- lift (mean_elements_period body epoch) ;;
  let lbl := generate_label epoch (Some (py_or_label lbl (body_str body))) in
  st <- get ;;
  let epochs := time_range epoch (num_points st) (epoch + period) in
  let coords := ephem_sample body epochs (body_parent body) (plane st) in
  match coords with
  | [] => raise IndexError
  | r0 :: _ => add_trajectory coords (Some r0) lbl cs false
  end.

End BaseOrbitPlotter.

(** ** Mixin2D *)

(** [np.isclose(a, b)] with numpy's defaults [rtol=1e-05], [atol=1e-08]. *)
Definition isclose (a b : R) : bool :=
  if Rle_dec (Rabs (a - b)) (1e-08 + 1e-05 * Rabs b) then true else false.

(** [np.allclose(xs, b)] for a scalar [b]. *)
Definition allclose (xs : list R) (b : R) : bool := forallb (fun a => isclose a b) xs.

Section Mixin2D.

Context {BE : Backend}.
Context {Orbit : Type} {CO : Collaborators Orbit}.

(** The pure part of [_project] for a frame [(p, q, w)]. *)
Definition project_with (f : Frame) (rr : list Vec3) : list R * list R :=
  let '(p, q, w) := f in
  let rr_proj := map (fun r => vsub r (vscale (dot r w) w)) rr in
  (map (fun r => dot r p) rr_proj, map (fun r => dot r q) rr_proj).

(** [_project]: [self._frame] is an [AttributeError] before a frame is set. *)
Definition project (rr : list Vec3) : M (list R * list R) :=
  st <- get ;;
  match frame st with
  | None => raise AttributeError
  | Some f => ret (project_with f rr)
  end.

(** [_set_frame]; [_redraw] is [BaseOrbitPlotter._redraw], which comes
    first in the method resolution order of the concrete 2D plotter. *)
Definition set_frame (p q w : Vec3) : M unit :=
  if negb (allclose [norm p; norm q; norm w] 1) then
    raise (ValueError "Vectors must be unit.")
  else if negb (allclose [dot p q; dot q w; dot w p] 0) then
    raise (ValueError "Vectors must be mutually orthogonal.")
  else
    modify (fun st => set_frame_field st (Some (p, q, w))) ;;;
    st <- get ;;
    match trajectories st with
    | [] => ret tt
    | _ => redraw
    end.

(** [set_orbit_frame] *)
Definition set_orbit_frame (orbit : Orbit) : M unit :=
  let '(p, q, w) := orbit_pqw orbit in set_frame p q w.

(** [set_body_frame] *)
Definition set_body_frame (body : Body) (epoch : option R) : M unit :=
  st <- get ;;
  set_orbit_frame (orbit_change_plane (orbit_from_body_ephem body epoch) (plane st)).

End Mixin2D.

(** ** Sequences of calls on one plotter *)

Inductive Call (Orbit : Type) :=
| CSetAttractor (a : option Body)
| CPlotTrajectory (coords : list Vec3) (lbl : option string) (color : option Color) (trail : bool)
| CPlot (orbit : Orbit) (lbl : option string) (color : option Color) (trail : bool)
| CPlotBodyOrbit (body : Body) (epoch : R) (lbl : option string) (color : option Color) (trail : bool)
| CSetFrame (p q w : Vec3)
| CSetOrbitFrame (orbit : Orbit)
| CSetBodyFrame (body : Body) (epoch : option R).
Arguments CSetAttractor {Orbit} a.
Arguments CPlotTrajectory {Orbit} coords lbl color trail.
Arguments CPlot {Orbit} orbit lbl color trail.
Arguments CPlotBodyOrbit {Orbit} body epoch lbl color trail.
Arguments CSetFrame {Orbit} p q w.
Arguments CSetOrbitFrame {Orbit} orbit.
Arguments CSetBodyFrame {Orbit} body epoch.

Definition is_plot_call {Orbit} (c : Call Orbit) : bool :=
  match c with
  | CPlotTrajectory _ _ _ _ | CPlot _ _ _ _ | CPlotBodyOrbit _ _ _ _ _ => true
  | _ => false
  end.

Section Calls.

Context {BE : Backend}.
Context {Orbit : Type} {CO : Collaborators Orbit}.

Definition exec_call (c : Call Orbit) : M unit :=
  match c with
  | CSetAttractor a => set_attractor a
  | CPlotTrajectory coords lbl color trail => plot_trajectory coords lbl color trail
  | CPlot orbit lbl color trail => plot orbit lbl color trail
  | CPlotBodyOrbit body epoch lbl color trail => plot_body_orbit body epoch lbl color trail
  | CSetFrame p q w => set_frame p q w
  | CSetOrbitFrame orbit => set_orbit_frame orbit
  | CSetBodyFrame body epoch => set_body_frame body epoch
  end.

(** Runs the calls in order, stopping at the first that raises. *)
Fixpoint exec_calls (cs : list (Call Orbit)) : M unit :=
  match cs with
  | [] => ret tt
  | c :: cs => exec_call c ;;; exec_calls cs
  end.

End Calls.

(** ** Concrete backends, bodies and collaborators *)

(** A backend whose hooks all return; [_get_colors] gives one color. *)
Definition ok_backend : Backend := {|
  _get_colors c _ := Ok [match c with Some c => c | None => "#1f77b4"%string end];
  _clear_attractor := Ok tt;
  _draw_sphere _ _ _ _ := Ok tt;
  _draw_point _ _ _ _ := Ok tt;
  _plot_coordinates _ _ _ _ := Ok tt
|}.

(** A backend whose [_draw_point] draws only markers of radius [r0]. *)
Definition probe_backend (r0 : R) : Backend := {|
  _get_colors c _ := Ok [match c with Some c => c | None => "#1f77b4"%string end];
  _clear_attractor := Ok tt;
  _draw_sphere _ _ _ _ := Ok tt;
  _draw_point r _ _ _ := if Req_EM_T r r0 then Ok tt else Err HookError;
  _plot_coordinates _ _ _ _ := Ok tt
|}.

Definition Sun : Body := mkBody 0 "Sun" 695700 None.
Definition Earth : Body := mkBody 3 "Earth" 6371 (Some Sun).
Definition Mars : Body := mkBody 4 "Mars" 3389.5 (Some Sun).

Definition e1 : Vec3 := mkVec3 1 0 0.
Definition e2 : Vec3 := mkVec3 0 1 0.
Definition e3 : Vec3 := mkVec3 0 0 1.

(** Collaborators for concrete runs: a single orbit around the Earth,
    every body's period is 687 days, and the ephemeris puts a body at
    [(1 + t, 0, 0)] at epoch [t]. *)
Definition test_collab : Collaborators unit := {|
  orbit_attractor _ := Earth;
  orbit_change_plane o _ := o;
  orbit_sample _ n := repeat (mkVec3 7000 0 0) n;
  orbit_r _ := mkVec3 7000 0 0;
  orbit_epoch _ := 0;
  orbit_pqw _ := (e1, e2, e3);
  orbit_from_body_ephem _ _ := tt;
  body_str b := body_name b;
  BODY_COLORS _ := None;
  generate_label _ l := py_str l;
  mean_elements_period _ _ := Ok 687;
  ephem_position _ _ _ t := mkVec3 (1 + t) 0 0
|}.

(** ** Predicates used by the statements *)

(** [m] relates the state before and after it by [Rel], also when it raises. *)
Definition keeps {A} (Rel : Plotter -> Plotter -> Prop) (m : M A) : Prop :=
  forall st, Rel st (snd (m st)).

Definition same_state (st st' : Plotter) : Prop := st' = st.
Definition same_traj (st st' : Plotter) : Prop := trajectories st' = trajectories st.
Definition same_attractor (st st' : Plotter) : Prop := attractor st' = attractor st.
Definition same_setup (st st' : Plotter) : Prop :=
  num_points st' = num_points st /\ plane st' = plane st.
Definition grows (st st' : Plotter) : Prop :=
  exists ts, trajectories st' = trajectories st ++ ts.


Definition is_min (m : R) (xs : list R) : Prop :=
  In m xs /\ forall y, In y xs -> m <= y.

(** The minimum over all trajectories of their minimum distance from the
    origin, characterised by the samples themselves. *)
Definition is_min_distance (m : R) (ts : list Trajectory) : Prop :=
  (exists t x, In t ts /\ In x (coordinates t) /\ norm x = m) /\
  (forall t x, In t ts -> In x (coordinates t) -> m <= norm x).

(** A default plotter after [set_attractor(Earth)]. *)
Definition earth_plotter : Plotter := snd (set_attractor (Some Earth) default_plotter).

(** [plot_trajectory] of one sample at distance [x] on the x axis. *)
Definition plot_at (x : R) : M unit :=
  plot_trajectory (BE := ok_backend) (CO := test_collab) [mkVec3 x 0 0] None None false.

(** Two successive insertions, the second one closer to the origin. *)
Definition closer_1 : Plotter := snd (plot_at 100000 earth_plotter).
Definition closer_2 : Plotter := snd (plot_at 50000 closer_1).

(** [plot_trajectory] of an empty coordinate sequence. *)
Definition empty_plot : Res unit * Plotter :=
  plot_trajectory (BE := ok_backend) (CO := test_collab) [] None None false earth_plotter.

(** [_set_frame]'s tolerance-based checks, written as inequalities. *)
Definition unit_within (v : Vec3) : Prop := Rabs (norm v - 1) <= 1e-08 + 1e-05 * 1.
Definition orthogonal_within (a b : Vec3) : Prop := Rabs (dot a b) <= 1e-08.

(** A plotter around the Earth whose attractor radius is 10000 km. *)
Definition marker_plotter : Plotter := set_radius_field earth_plotter (Fin 10000).

(** [plot_body_orbit(Mars, 0)] on a plotter with [num_points=1]. *)
Definition one_point_run : Res unit * Plotter :=
  plot_body_orbit (BE := ok_backend) (CO := test_collab) Mars 0 None None false
    (init_plotter 1 None).

Section CallResults.

Context {Orbit : Type} {CO : Collaborators Orbit}.

(** What the trajectory stored by the plot call [c] holds, on a plotter
    with [n] sample points and plane [pl]. *)
Definition made_by (n : nat) (pl : Plane) (c : Call Orbit) (t : Trajectory) : Prop :=
  match c with
  | CPlotTrajectory coords lbl _ _ =>
      coordinates t = coords /\ position t = None /\ label t = py_str lbl /\ dashed t = false
  | CPlot orbit lbl _ _ =>
      let o := orbit_change_plane orbit pl in
      coordinates t = orbit_sample o n /\ position t = Some (orbit_r o) /\
      label t = generate_label (orbit_epoch o) lbl /\ dashed t = true
  | CPlotBodyOrbit body epoch _ _ _ =>
      (exists period,
         coordinates t = ephem_sample body (time_range epoch n (epoch + period)) (body_parent body) pl) /\
      position t = hd_error (coordinates t) /\ dashed t = false
  | _ => False
  end.

End CallResults.

(** A backend whose hooks used by [plot_trajectory] never raise. *)
Definition hooks_never_raise (BE : Backend) : Prop :=
  (forall c tr, exists cs, _get_colors (Backend := BE) c tr = Ok cs) /\
  _clear_attractor (Backend := BE) = Ok tt /\
  (forall r c n ctr, _draw_sphere (Backend := BE) r c n ctr = Ok tt) /\
  (forall xs l cs d, _plot_coordinates (Backend := BE) xs l cs d = Ok tt).

(** An attractor, once set, is still set to the same body. *)
Definition attractor_kept (st st' : Plotter) : Prop :=
  forall b, attractor st = Some b -> attractor st' = Some b.

(** A default plotter after [set_attractor(Mars)]. *)
Definition mars_plotter : Plotter := snd (set_attractor (Some Mars) default_plotter).

(** Collaborators as [test_collab], except that [get_mean_elements]
    raises for every body. *)
Definition no_elements_collab : Collaborators unit := {|
  orbit_attractor _ := Earth;
  orbit_change_plane o _ := o;
  orbit_sample _ n := repeat (mkVec3 7000 0 0) n;
  orbit_r _ := mkVec3 7000 0 0;
  orbit_epoch _ := 0;
  orbit_pqw _ := (e1, e2, e3);
  orbit_from_body_ephem _ _ := tt;
  body_str b := body_name b;
  BODY_COLORS _ := None;
  generate_label _ l := py_str l;
  mean_elements_period _ _ := Err HookError;
  ephem_position _ _ _ t := mkVec3 (1 + t) 0 0
|}.

(** ** Frame conditions of the operations *)


Section Keeps.

Context (Rel : Plotter -> Plotter -> Prop) `{PreOrder Plotter Rel}.

Lemma keeps_ret {A} (a : A) : keeps Rel (ret a).
Proof. intro st; simpl; reflexivity. Qed.

Lemma keeps_raise {A} (e : Exc) : keeps Rel (@raise A e).
Proof. intro st; simpl; reflexivity. Qed.

Lemma keeps_get : keeps Rel get.
Proof. intro st; simpl; reflexivity. Qed.

Lemma keeps_lift {A} (r : Res A) : keeps Rel (lift r).
Proof. destruct r; intro st; simpl; reflexivity. Qed.

Lemma keeps_modify f : (forall st, Rel st (f st)) -> keeps Rel (modify f).
Proof. intros Hf st; apply Hf. Qed.

Lemma keeps_bind {A B} (m : M A) (f : A -> M B) :
  keeps Rel m -> (forall a, keeps Rel (f a)) -> keeps Rel (bind m f).
Proof.
  intros Hm Hf st; unfold bind.
  specialize (Hm st).
  destruct (m st) as [[a | e] st'] eqn:E; simpl in *.
  - etransitivity; [exact Hm | apply Hf].
  - exact Hm.
Qed.


End Keeps.

Create HintDb keeps.

Ltac keeps_step :=
  cbv beta zeta;
  match goal with
  | |- keeps _ (bind _ _) => apply keeps_bind; [typeclasses eauto | | intro]
  | |- keeps _ (ret _) => apply keeps_ret; typeclasses eauto
  | |- keeps _ (raise _) => apply keeps_raise; typeclasses eauto
  | |- keeps _ get => apply keeps_get; typeclasses eauto
  | |- keeps _ (lift _) => apply keeps_lift; typeclasses eauto
  | |- keeps _ (modify _) => apply keeps_modify; intro; simpl
  | |- keeps _ (if ?b then _ else _) => destruct b
  | |- keeps _ (match ?x with _ => _ end) => destruct x
  | |- keeps _ _ => solve [eauto with keeps]
  end.

Ltac keeps_tac := repeat keeps_step.


#[export] Instance same_state_preorder : PreOrder same_state.
Proof. split; [intro; reflexivity | intros ? ? ? ? ?; unfold same_state in *; congruence]. Qed.
#[export] Instance same_traj_preorder : PreOrder same_traj.
Proof. split; [intro; reflexivity | intros ? ? ? ? ?; unfold same_traj in *; congruence]. Qed.
#[export] Instance same_attractor_preorder : PreOrder same_attractor.
Proof. split; [intro; reflexivity | intros ? ? ? ? ?; unfold same_attractor in *; congruence]. Qed.
#[export] Instance same_setup_preorder : PreOrder same_setup.
Proof.
  split; [intro; split; reflexivity |].
  intros ? ? ? [] []; split; congruence.
Qed.
#[export] Instance grows_preorder : PreOrder grows.
Proof.
  split; [intro st; exists []; rewrite app_nil_r; reflexivity |].
  intros a b c [t1 E1] [t2 E2]; exists (t1 ++ t2); rewrite E2, E1, app_assoc; reflexivity.
Qed.

Lemma keeps_of_same_state {A} Rel `{PreOrder Plotter Rel} (m : M A) :
  keeps same_state m -> keeps Rel m.
Proof. intros Hm st; rewrite (Hm st); reflexivity. Qed.

Ltac keeps_step ::=
  cbv beta zeta;
  match goal with
  | |- keeps _ (bind _ _) => apply keeps_bind; [typeclasses eauto | | intro]
  | |- keeps _ (ret _) => apply keeps_ret; typeclasses eauto
  | |- keeps _ (raise _) => apply keeps_raise; typeclasses eauto
  | |- keeps _ get => apply keeps_get; typeclasses eauto
  | |- keeps _ (lift _) => apply keeps_lift; typeclasses eauto
  | |- keeps _ (modify _) => apply keeps_modify; intro; simpl
  | |- keeps _ (if ?b then _ else _) => destruct b
  | |- keeps _ (match ?x with _ => _ end) => destruct x
  | |- keeps _ _ => solve [eauto with keeps]
  | |- keeps _ _ =>
      apply keeps_of_same_state; [typeclasses eauto | solve [eauto with keeps]]
  end.

Section OperationFrames.

Context {BE : Backend}.
Context {Orbit : Type} {CO : Collaborators Orbit}.

Lemma plot_position_state p l cs : keeps same_state (plot_position p l cs).
Proof. unfold plot_position; keeps_tac. Qed.
#[local] Hint Resolve plot_position_state : keeps.

Lemma plot_coordinates_and_position_state t : keeps same_state (plot_coordinates_and_position t).
Proof. unfold plot_coordinates_and_position; keeps_tac. Qed.
#[local] Hint Resolve plot_coordinates_and_position_state : keeps.

Lemma redraw_list_state ts : keeps same_state (redraw_list ts).
Proof. induction ts; simpl; keeps_tac. Qed.
#[local] Hint Resolve redraw_list_state : keeps.

Lemma redraw_state : keeps same_state redraw.
Proof. unfold redraw; keeps_tac. Qed.
#[local] Hint Resolve redraw_state : keeps.

Lemma set_attractor_traj a : keeps same_traj (set_attractor a).
Proof. unfold set_attractor; keeps_tac; reflexivity. Qed.
#[local] Hint Resolve set_attractor_traj : keeps.

Lemma redraw_attractor_traj : keeps same_traj redraw_attractor.
Proof. unfold redraw_attractor; keeps_tac; reflexivity. Qed.
#[local] Hint Resolve redraw_attractor_traj : keeps.

Lemma redraw_attractor_attractor : keeps same_attractor redraw_attractor.
Proof. unfold redraw_attractor; keeps_tac; reflexivity. Qed.
#[local] Hint Resolve redraw_attractor_attractor : keeps.

Lemma set_frame_traj p q w : keeps same_traj (set_frame p q w).
Proof. unfold set_frame; keeps_tac; reflexivity. Qed.
#[local] Hint Resolve set_frame_traj : keeps.

Lemma set_orbit_frame_traj o : keeps same_traj (set_orbit_frame o).
Proof. unfold set_orbit_frame; keeps_tac. Qed.
#[local] Hint Resolve set_orbit_frame_traj : keeps.

Lemma set_body_frame_traj b e : keeps same_traj (set_body_frame b e).
Proof. unfold set_body_frame; keeps_tac. Qed.
#[local] Hint Resolve set_body_frame_traj : keeps.

Lemma add_trajectory_attractor c p l cs d : keeps same_attractor (add_trajectory c p l cs d).
Proof. unfold add_trajectory; keeps_tac; reflexivity. Qed.

Lemma exec_call_setup c : keeps same_setup (exec_call c).
Proof.
  destruct c; simpl;
    unfold plot_trajectory, plot, plot_body_orbit, set_body_frame, set_orbit_frame,
      set_frame, add_trajectory, set_attractor, redraw_attractor;
    keeps_tac; split; reflexivity.
Qed.

Lemma exec_call_grows c : keeps grows (exec_call c).
Proof.
  assert (Hs : forall st st', same_traj st st' -> grows st st')
    by (intros st st' E; exists []; rewrite app_nil_r; exact E).
  destruct c; simpl;
    unfold plot_trajectory, plot, plot_body_orbit, set_body_frame, set_orbit_frame,
      set_frame, add_trajectory, set_attractor, redraw_attractor;
    keeps_tac; try (exists []; rewrite app_nil_r; reflexivity); eexists; reflexivity.
Qed.

End OperationFrames.

#[export] Hint Resolve plot_position_state plot_coordinates_and_position_state
  redraw_list_state redraw_state set_attractor_traj redraw_attractor_traj
  redraw_attractor_attractor set_frame_traj set_orbit_frame_traj set_body_frame_traj : keeps.

(** ** Minima *)


Lemma Rmin_cases x y : Rmin x y = x \/ Rmin x y = y.
Proof. unfold Rmin; destruct (Rle_dec x y); auto. Qed.

Lemma fold_Rmin_is_min xs x : is_min (fold_left Rmin xs x) (x :: xs).
Proof.
  revert x; induction xs as [| a xs IH]; intro x; simpl.
  - split; [left; reflexivity | intros y [<- | []]; lra].
  - destruct (IH (Rmin x a)) as [Hin Hle]; split.
    + destruct Hin as [E | Hin]; [| right; right; exact Hin].
      destruct (Rmin_cases x a) as [E' | E']; rewrite <- E, E'; auto with datatypes.
    + intros y [<- | [<- | Hy]].
      * specialize (Hle _ (or_introl eq_refl)); pose proof (Rmin_l x a); lra.
      * specialize (Hle _ (or_introl eq_refl)); pose proof (Rmin_r x a); lra.
      * apply Hle; right; exact Hy.
Qed.

Lemma np_min_is_min xs m : np_min xs = Ok m -> is_min m xs.
Proof.
  destruct xs as [| x xs]; simpl; intro E; inversion E; subst.
  apply fold_Rmin_is_min.
Qed.

Lemma min_or_zero_is_min ds : ds <> [] -> is_min (min_or_zero ds) ds.
Proof. destruct ds as [| d ds]; [congruence | intros _; apply fold_Rmin_is_min]. Qed.

Lemma min_distances_spec ts :
  Forall (fun t => coordinates t <> []) ts ->
  exists ds, min_distances ts = Ok ds /\
             Forall2 (fun t d => is_min d (map norm (coordinates t))) ts ds.
Proof.
  induction 1 as [| t ts Ht _ [ds [E F]]]; [exists []; split; constructor |].
  simpl; destruct (coordinates t) as [| x xs] eqn:Ec; [congruence |].
  simpl; rewrite E.
  exists (fold_left Rmin (map norm xs) (norm x) :: ds); split; [reflexivity |].
  constructor; [| exact F].
  rewrite Ec; apply fold_Rmin_is_min.
Qed.


Lemma min_or_zero_min_distance ts ds :
  ts <> [] ->
  Forall2 (fun t d => is_min d (map norm (coordinates t))) ts ds ->
  is_min_distance (min_or_zero ds) ts.
Proof.
  intros Hne F.
  assert (Hds : ds <> []) by (destruct F; congruence).
  destruct (min_or_zero_is_min ds Hds) as [Hin Hle].
  split.
  - clear Hle Hne Hds; revert Hin; generalize (min_or_zero ds) as m; intros m Hin.
    induction F as [| t d ts ds Hd F IH]; [destruct Hin |].
    destruct Hin as [E | Hin].
    + destruct Hd as [Hd _]; rewrite E in Hd.
      apply in_map_iff in Hd as [x [Ex Hx]].
      exists t, x; simpl; auto.
    + destruct (IH Hin) as [t' [x [Ht [Hx Ex]]]]; exists t', x; simpl; auto.
  - intros t x Ht Hx; clear Hin Hne Hds.
    revert Hle; generalize (min_or_zero ds) as m; intros m Hle.
    revert Hle; induction F as [| t' d ts ds Hd F IH]; intro Hle; [destruct Ht |].
    destruct Ht as [<- | Ht].
    + destruct Hd as [_ Hd].
      apply Rle_trans with d; [apply Hle; left; reflexivity |].
      apply Hd, in_map; exact Hx.
    + apply IH; [exact Ht | intros y Hy; apply Hle; right; exact Hy].
Qed.

(** ** The attractor radius after an insertion *)

Section Radius.

Context {BE : Backend}.
Context {Orbit : Type} {CO : Collaborators Orbit}.

Lemma bind_modify {A} f (m : M A) st : (modify f ;;; m) st = m (f st).
Proof. reflexivity. Qed.

Lemma add_trajectory_traj c p l cs d st :
  trajectories (snd (add_trajectory c p l cs d st)) =
  trajectories st ++ [mkTrajectory c p l cs d].
Proof.
  unfold add_trajectory; rewrite bind_modify.
  match goal with |- trajectories (snd (?m ?s)) = _ =>
    assert (K : keeps same_traj m) by keeps_tac; apply (K s) end.
Qed.

Lemma add_trajectory_radius c p l cs d st b ds :
  attractor st = Some b ->
  min_distances (trajectories st ++ [mkTrajectory c p l cs d]) = Ok ds ->
  attractor_radius (snd (add_trajectory c p l cs d st)) =
  Fin (Rmax (body_R b) (min_or_zero ds * 0.15)).
Proof.
  intros Hb Hds.
  unfold add_trajectory, redraw_attractor, bind, get, modify, lift, ret, raise; simpl.
  rewrite Hds; simpl; rewrite Hb; simpl.
  destruct _clear_attractor; simpl; [| reflexivity].
  destruct _draw_sphere; simpl; [| reflexivity].
  match goal with |- attractor_radius (snd (plot_coordinates_and_position ?t ?s)) = _ =>
    rewrite (plot_coordinates_and_position_state t s) end.
  reflexivity.
Qed.

End Radius.


Lemma norm_on_axis x : 0 <= x -> norm (mkVec3 x 0 0) = x.
Proof.
  intro Hx; unfold norm, dot; simpl.
  replace (x * x + 0 * 0 + 0 * 0) with (x * x) by ring.
  apply sqrt_square; exact Hx.
Qed.

Lemma norm_on_axis_y y : 0 <= y -> norm (mkVec3 0 y 0) = y.
Proof.
  intro Hy; unfold norm, dot; simpl.
  replace (0 * 0 + y * y + 0 * 0) with (y * y) by ring.
  apply sqrt_square; exact Hy.
Qed.

(** * Claims *)

(** C1: after a trajectory is inserted into a plotter whose attractor is
    [b], the attractor radius is [max(b.R, 0.15 * m)], where [m] is the
    minimum over all stored trajectories (the new one included, each with
    at least one sample, so that the minimum exists) of the minimum
    distance of their samples from the origin; the recompute on
    a plotter without trajectories takes [m = 0]; with [R = 6371] km and
    a minimum distance of 50000 km the radius is 7500 km. *)
Theorem attractor_radius_after_insertion :
  (forall (BE : Backend) (Orbit : Type) (CO : Collaborators Orbit) st b c p l cs d,
     attractor st = Some b ->
     Forall (fun t => coordinates t <> []) (trajectories st ++ [mkTrajectory c p l cs d]) ->
     exists m, is_min_distance m (trajectories st ++ [mkTrajectory c p l cs d]) /\
       attractor_radius (snd (add_trajectory c p l cs d st)) = Fin (Rmax (body_R b) (0.15 * m))) /\
  (forall (BE : Backend) (Orbit : Type) (CO : Collaborators Orbit) st b,
     attractor st = Some b -> trajectories st = [] ->
     attractor_radius (snd (redraw_attractor st)) = Fin (Rmax (body_R b) (0.15 * 0))) /\
  attractor_radius
    (snd (add_trajectory (BE := ok_backend) (CO := test_collab)
            [mkVec3 50000 0 0; mkVec3 0 80000 0] None "None" ["#1f77b4"%string] false
            earth_plotter)) = Fin 7500.
Proof.
  split; [| split].
  - intros BE Orbit CO st b c p l cs d Hb Hne.
    destruct (min_distances_spec _ Hne) as [ds [Eds F]].
    exists (min_or_zero ds); split.
    + apply min_or_zero_min_distance; [destruct (trajectories st); discriminate | exact F].
    + rewrite (add_trajectory_radius c p l cs d st b ds Hb Eds), Rmult_comm; reflexivity.
  - intros BE Orbit CO st b Hb Ht.
    unfold redraw_attractor, bind, get, lift, modify, ret, raise; simpl.
    rewrite Ht; simpl; rewrite Hb; simpl.
    destruct _clear_attractor; simpl; [destruct _draw_sphere |]; simpl;
      rewrite Rmult_comm; reflexivity.
  - rewrite (add_trajectory_radius (BE := ok_backend) (CO := test_collab) _ _ _ _ _ _ Earth
               [Rmin (norm (mkVec3 50000 0 0)) (norm (mkVec3 0 80000 0))]); [| reflexivity | reflexivity].
    rewrite norm_on_axis, norm_on_axis_y by lra.
    simpl; rewrite Rmin_left by lra.
    rewrite Rmax_right by (unfold Earth; simpl; lra).
    simpl; f_equal; lra.
Qed.

Lemma attractor_radius_after_insertion_witness :
  (exists m, is_min_distance m [mkTrajectory [mkVec3 50000 0 0] None "None" ["c"%string] false] /\
     attractor_radius (snd (add_trajectory (BE := ok_backend) (CO := test_collab)
       [mkVec3 50000 0 0] None "None" ["c"%string] false earth_plotter)) =
     Fin (Rmax 6371 (0.15 * m))) /\
  attractor_radius (snd (redraw_attractor (BE := ok_backend) (CO := test_collab) earth_plotter)) =
  Fin (Rmax 6371 (0.15 * 0)).
Proof.
  split.
  - apply (proj1 attractor_radius_after_insertion ok_backend unit test_collab earth_plotter Earth);
      [reflexivity | repeat constructor; simpl; discriminate].
  - apply (proj1 (proj2 attractor_radius_after_insertion) ok_backend unit test_collab
             earth_plotter Earth); reflexivity.
Defined.

Section Insertions.

Context {BE : Backend}.
Context {Orbit : Type} {CO : Collaborators Orbit}.

Lemma plot_trajectory_add coords lbl color trail st b cs :
  attractor st = Some b -> _get_colors color trail = Ok cs ->
  plot_trajectory coords lbl color trail st = add_trajectory coords None (py_str lbl) cs false st.
Proof. intros Hb Hc; unfold plot_trajectory, bind, get, lift; simpl; rewrite Hb, Hc; reflexivity. Qed.

Lemma Rmax_le_compat_l a x y : x <= y -> Rmax a x <= Rmax a y.
Proof. unfold Rmax; destruct (Rle_dec a x), (Rle_dec a y); lra. Qed.

Lemma add_trajectory_traj_t t st :
  trajectories (snd (add_trajectory (coordinates t) (position t) (label t) (colors t) (dashed t) st)) =
  trajectories st ++ [t].
Proof. rewrite add_trajectory_traj; destruct t; reflexivity. Qed.

(** The radius after an insertion, as the minimum of the samples. *)
Lemma add_trajectory_radius_min t st b :
  attractor st = Some b ->
  Forall (fun t => coordinates t <> []) (trajectories st ++ [t]) ->
  exists m, is_min_distance m (trajectories st ++ [t]) /\
    attractor_radius (snd (add_trajectory (coordinates t) (position t) (label t) (colors t)
                             (dashed t) st)) = Fin (Rmax (body_R b) (m * 0.15)).
Proof.
  intros Hb Hne.
  destruct (min_distances_spec _ Hne) as [ds [Eds F]].
  exists (min_or_zero ds); split.
  - apply min_or_zero_min_distance; [destruct (trajectories st); discriminate | exact F].
  - apply add_trajectory_radius; [exact Hb |].
    destruct t; exact Eds.
Qed.

End Insertions.

(** C2 (as stated, refuted): two successful [plot_trajectory] calls on a
    plotter around the Earth, the second one closer to the origin; the
    attractor radius goes from 15000 km down to 7500 km. *)
Lemma attractor_radius_not_monotone :
  fst (plot_at 100000 earth_plotter) = Ok tt /\
  fst (plot_at 50000 closer_1) = Ok tt /\
  attractor_radius closer_1 = Fin 15000 /\
  attractor_radius closer_2 = Fin 7500 /\
  7500 < 15000.
Proof.
  split; [reflexivity | split; [reflexivity | split; [| split; [| lra]]]].
  - unfold closer_1, plot_at.
    rewrite (plot_trajectory_add (BE := ok_backend) (CO := test_collab) _ _ _ _ _ Earth
               ["#1f77b4"%string]) by reflexivity.
    rewrite (add_trajectory_radius (BE := ok_backend) (CO := test_collab) _ _ _ _ _ _ Earth
               [norm (mkVec3 100000 0 0)]) by reflexivity.
    rewrite norm_on_axis by lra.
    rewrite Rmax_right by (unfold Earth; simpl; lra).
    simpl; f_equal; lra.
  - unfold closer_2, plot_at.
    rewrite (plot_trajectory_add (BE := ok_backend) (CO := test_collab) _ _ _ _ _ Earth
               ["#1f77b4"%string]) by reflexivity.
    rewrite (add_trajectory_radius (BE := ok_backend) (CO := test_collab) _ _ _ _ _ _ Earth
               [norm (mkVec3 100000 0 0); norm (mkVec3 50000 0 0)]) by reflexivity.
    simpl; rewrite !norm_on_axis by lra.
    rewrite Rmin_right by lra.
    rewrite Rmax_right by (unfold Earth; simpl; lra).
    simpl; f_equal; lra.
Qed.

(** C2 (amended): on a plotter whose attractor is [b], after each
    insertion (all samples present) the attractor radius is at least
    [b.R]; across two successive insertions it does not increase, since
    the minimum distance over the stored trajectories can only shrink. *)
Theorem attractor_radius_bounded_non_increasing :
  forall (BE : Backend) (Orbit : Type) (CO : Collaborators Orbit) st b t1 t2,
  attractor st = Some b ->
  Forall (fun t => coordinates t <> []) (trajectories st ++ [t1; t2]) ->
  exists r1 r2,
    attractor_radius (snd (add_trajectory (coordinates t1) (position t1) (label t1)
                             (colors t1) (dashed t1) st)) = Fin r1 /\
    attractor_radius (snd (add_trajectory (coordinates t2) (position t2) (label t2)
                             (colors t2) (dashed t2)
                             (snd (add_trajectory (coordinates t1) (position t1) (label t1)
                                     (colors t1) (dashed t1) st)))) = Fin r2 /\
    body_R b <= r1 /\ body_R b <= r2 /\ r2 <= r1.
Proof.
  intros BE Orbit CO st b t1 t2 Hb Hne.
  set (st1 := snd (add_trajectory (coordinates t1) (position t1) (label t1)
                     (colors t1) (dashed t1) st)).
  replace (trajectories st ++ [t1; t2]) with ((trajectories st ++ [t1]) ++ [t2]) in Hne
    by (rewrite <- app_assoc; reflexivity).
  apply Forall_app in Hne as [Hne1 Hne2].
  assert (Ht1 : trajectories st1 = trajectories st ++ [t1]) by apply add_trajectory_traj_t.
  assert (Hb1 : attractor st1 = Some b) by (rewrite <- Hb; apply add_trajectory_attractor).
  destruct (add_trajectory_radius_min t1 st b Hb Hne1) as [m1 [[Hin1 _] E1]].
  destruct (add_trajectory_radius_min t2 st1 b Hb1) as [m2 [[_ Hle2] E2]].
  { rewrite Ht1; apply Forall_app; split; [exact Hne1 | exact Hne2]. }
  exists (Rmax (body_R b) (m1 * 0.15)), (Rmax (body_R b) (m2 * 0.15)).
  split; [exact E1 | split; [exact E2 |]].
  split; [apply Rmax_l | split; [apply Rmax_l |]].
  apply Rmax_le_compat_l.
  destruct Hin1 as [t [x [Ht [Hx Ex]]]].
  assert (m2 <= m1); [| lra].
  rewrite <- Ex; apply (Hle2 t x); [rewrite Ht1; apply in_or_app; left; exact Ht | exact Hx].
Qed.

Lemma attractor_radius_bounded_non_increasing_witness :
  exists r1 r2,
    attractor_radius (snd (add_trajectory (BE := ok_backend) (CO := test_collab)
                             [mkVec3 100000 0 0] None "a" [] false earth_plotter)) = Fin r1 /\
    attractor_radius (snd (add_trajectory (BE := ok_backend) (CO := test_collab)
                             [mkVec3 50000 0 0] None "b" [] false
                             (snd (add_trajectory (BE := ok_backend) (CO := test_collab)
                                     [mkVec3 100000 0 0] None "a" [] false earth_plotter)))) =
      Fin r2 /\
    6371 <= r1 /\ 6371 <= r2 /\ r2 <= r1.
Proof.
  apply (attractor_radius_bounded_non_increasing ok_backend unit test_collab earth_plotter Earth
           (mkTrajectory [mkVec3 100000 0 0] None "a" [] false)
           (mkTrajectory [mkVec3 50000 0 0] None "b" [] false));
    [reflexivity | repeat constructor; simpl; discriminate].
Defined.

(** C3 (as stated, refuted): [plot_trajectory] of an empty coordinate
    sequence on a plotter around the Earth raises (numpy's [.min()] of a
    zero-size array in [_redraw_attractor]), and the trajectory it was
    inserting stays in the list. *)
Lemma failed_plot_keeps_trajectory :
  fst empty_plot = Err ReductionError /\
  trajectories (snd empty_plot) = [mkTrajectory [] None "None" ["#1f77b4"%string] false] /\
  trajectories earth_plotter = [].
Proof. split; [reflexivity | split; reflexivity]. Qed.

(** C4: once an attractor [cur] is set, [set_attractor] with a value
    that is not [cur] raises and changes nothing, and [set_attractor]
    with [cur] itself returns and changes nothing. *)
Theorem set_attractor_once :
  forall st cur a,
  attractor st = Some cur ->
  (py_is a (Some cur) = false ->
   set_attractor a st =
   (Err (NotImplementedError (String.append "Attractor has already been set to " (body_name cur))), st)) /\
  (py_is a (Some cur) = true -> set_attractor a st = (Ok tt, st)).
Proof.
  intros st cur a Hb; unfold set_attractor, bind, get; simpl; rewrite Hb.
  split; intro E; rewrite E; reflexivity.
Qed.

Lemma set_attractor_once_witness :
  set_attractor (Some Mars) earth_plotter =
  (Err (NotImplementedError "Attractor has already been set to Earth"), earth_plotter) /\
  set_attractor (Some Earth) earth_plotter = (Ok tt, earth_plotter).
Proof.
  split.
  - apply (proj1 (set_attractor_once earth_plotter Earth (Some Mars) eq_refl)); reflexivity.
  - apply (proj2 (set_attractor_once earth_plotter Earth (Some Earth) eq_refl)); reflexivity.
Defined.

Section Labels.

Context {BE : Backend}.
Context {Orbit : Type} {CO : Collaborators Orbit}.

Lemma plot_trajectory_ok coords lbl color trail st st' :
  plot_trajectory coords lbl color trail st = (Ok tt, st') ->
  exists cs, trajectories st' = trajectories st ++ [mkTrajectory coords None (py_str lbl) cs false].
Proof.
  unfold plot_trajectory, bind at 1, get; simpl.
  destruct (attractor st) as [b |]; [| discriminate].
  unfold bind, lift; destruct (_get_colors color trail) as [cs | e]; simpl; [| discriminate].
  intro E; exists cs.
  pose proof (add_trajectory_traj coords None (py_str lbl) cs false st) as T.
  unfold add_trajectory, bind in E, T |- *; rewrite E in T; exact T.
Qed.

End Labels.

(** C10: the trajectory a successful [plot_trajectory] stores has the
    label [str(label)]; with the label omitted ([None]) it is the string
    ["None"]. *)
Theorem plot_trajectory_label :
  forall (BE : Backend) (Orbit : Type) (CO : Collaborators Orbit) coords lbl color trail st st',
  plot_trajectory coords lbl color trail st = (Ok tt, st') ->
  exists t, trajectories st' = trajectories st ++ [t] /\
            label t = py_str lbl /\
            (lbl = None -> label t = "None"%string).
Proof.
  intros BE Orbit CO coords lbl color trail st st' E.
  destruct (plot_trajectory_ok coords lbl color trail st st' E) as [cs T].
  exists (mkTrajectory coords None (py_str lbl) cs false); simpl.
  split; [exact T | split; [reflexivity | intros ->; reflexivity]].
Qed.

Lemma plot_trajectory_label_witness :
  exists t, trajectories (snd (plot_at 7000 earth_plotter)) = trajectories earth_plotter ++ [t] /\
            label t = py_str None /\
            (None = @None string -> label t = "None"%string).
Proof.
  apply (plot_trajectory_label ok_backend unit test_collab [mkVec3 7000 0 0] None None false
           earth_plotter); reflexivity.
Defined.

(** ** Successful plot calls *)

Lemma bind_inv {A B} (m : M A) (f : A -> M B) st b st' :
  bind m f st = (Ok b, st') -> exists a st1, m st = (Ok a, st1) /\ f a st1 = (Ok b, st').
Proof. unfold bind; destruct (m st) as [[a | e] st1]; [eauto | discriminate]. Qed.

Lemma lift_inv {A} (r : Res A) st a st' : lift r st = (Ok a, st') -> r = Ok a /\ st' = st.
Proof. destruct r; simpl; intro E; inversion E; auto. Qed.

Lemma get_inv st a st' : get st = (Ok a, st') -> a = st /\ st' = st.
Proof. intro E; inversion E; auto. Qed.

Section PlotCalls.

Context {BE : Backend}.
Context {Orbit : Type} {CO : Collaborators Orbit}.

Lemma add_trajectory_result c p l cs d st r st' :
  add_trajectory c p l cs d st = (r, st') ->
  trajectories st' = trajectories st ++ [mkTrajectory c p l cs d].
Proof. intro E; rewrite <- add_trajectory_traj, E; reflexivity. Qed.

Lemma set_attractor_result a st r st' :
  set_attractor a st = (r, st') ->
  trajectories st' = trajectories st /\ num_points st' = num_points st /\ plane st' = plane st.
Proof.
  intro E.
  pose proof (set_attractor_traj a st) as T; pose proof (exec_call_setup (CSetAttractor a) st) as S.
  simpl in S; rewrite E in T, S; destruct S; auto.
Qed.

Lemma plot_call_step (c : Call Orbit) st st' :
  is_plot_call c = true -> exec_call c st = (Ok tt, st') ->
  exists t, trajectories st' = trajectories st ++ [t] /\ made_by (num_points st) (plane st) c t.
Proof.
  destruct c as [a | coords lbl color trail | orbit lbl color trail | body epoch lbl color trail
                 | p q w | orbit | body epoch]; simpl; try discriminate; intros _ E.
  - destruct (plot_trajectory_ok coords lbl color trail st st' E) as [cs T].
    eexists; split; [exact T | simpl; auto].
  - unfold plot in E.
    apply bind_inv in E as [cs [st1 [E1 E]]]; apply lift_inv in E1 as [_ ->].
    apply bind_inv in E as [[] [st2 [E2 E]]].
    apply bind_inv in E as [st3 [st4 [E3 E]]]; apply get_inv in E3 as [-> ->].
    destruct (set_attractor_result _ _ _ _ E2) as [T2 [N2 P2]].
    cbv beta zeta in E; apply add_trajectory_result in E.
    eexists; split; [rewrite E, T2; reflexivity |].
    rewrite N2, P2; simpl; auto.
  - unfold plot_body_orbit in E.
    apply bind_inv in E as [cs [st1 [E1 E]]]; apply lift_inv in E1 as [_ ->].
    apply bind_inv in E as [[] [st2 [E2 E]]].
    apply bind_inv in E as [period [st3 [E3 E]]]; apply lift_inv in E3 as [_ ->].
    apply bind_inv in E as [st4 [st5 [E4 E]]]; apply get_inv in E4 as [-> ->].
    destruct (set_attractor_result _ _ _ _ E2) as [T2 [N2 P2]].
    cbv beta zeta in E.
    destruct (ephem_sample body (time_range epoch (num_points st2) (epoch + period))
                (body_parent body) (plane st2)) as [| r0 rs] eqn:Ec; [discriminate |].
    apply add_trajectory_result in E.
    eexists; split; [rewrite E, T2; reflexivity |].
    simpl; split; [exists period; rewrite <- N2, <- P2, Ec; reflexivity | auto].
Qed.

End PlotCalls.

(** C5: no call removes a trajectory (the list after any call, also one
    that raises, extends the list before it); a run of successful plot
    calls appends exactly one trajectory per call, in call order, each
    holding what its call produced. *)
Theorem plot_calls_append_in_order :
  (forall (BE : Backend) (Orbit : Type) (CO : Collaborators Orbit) (c : Call Orbit) st,
     exists ts, trajectories (snd (exec_call c st)) = trajectories st ++ ts) /\
  (forall (BE : Backend) (Orbit : Type) (CO : Collaborators Orbit) (cs : list (Call Orbit)) st st',
     forallb is_plot_call cs = true ->
     exec_calls cs st = (Ok tt, st') ->
     exists ts, trajectories st' = trajectories st ++ ts /\
                List.length ts = List.length cs /\
                Forall2 (made_by (num_points st) (plane st)) cs ts).
Proof.
  split.
  - intros BE Orbit CO c st; apply exec_call_grows.
  - intros BE Orbit CO cs; induction cs as [| c cs IH]; intros st st' Hp E.
    + inversion E; subst; exists []; split; [rewrite app_nil_r; reflexivity | split; constructor].
    + simpl in Hp; apply Bool.andb_true_iff in Hp as [Hc Hp].
      apply bind_inv in E as [[] [st1 [E1 E]]].
      destruct (plot_call_step c st st1 Hc E1) as [t [T1 M1]].
      destruct (IH st1 st' Hp E) as [ts [T [L F]]].
      pose proof (exec_call_setup c st) as S; rewrite E1 in S; destruct S as [N1 P1].
      exists (t :: ts); split; [| split].
      * rewrite T, T1, <- app_assoc; reflexivity.
      * simpl; rewrite L; reflexivity.
      * constructor; [exact M1 | rewrite <- N1, <- P1; exact F].
Qed.

Lemma plot_calls_append_in_order_witness :
  exists ts, trajectories (snd (exec_calls (BE := ok_backend) (CO := test_collab)
               [CPlotTrajectory [mkVec3 7000 0 0] None None false; CPlot tt None None false]
               earth_plotter)) = trajectories earth_plotter ++ ts /\
             List.length ts = 2%nat /\
             Forall2 (made_by (CO := test_collab) 150 EARTH_EQUATOR)
               [CPlotTrajectory [mkVec3 7000 0 0] None None false; CPlot tt None None false] ts.
Proof.
  apply (proj2 plot_calls_append_in_order ok_backend unit test_collab
           [CPlotTrajectory [mkVec3 7000 0 0] None None false; CPlot tt None None false]
           earth_plotter); reflexivity.
Defined.

(** ** Frame validation *)

Lemma isclose_one v : isclose (norm v) 1 = true <-> unit_within v.
Proof.
  unfold isclose, unit_within; rewrite Rabs_R1.
  destruct (Rle_dec _ _); split; intro; try reflexivity; try assumption; try contradiction; discriminate.
Qed.

Lemma isclose_one_false v : ~ unit_within v -> isclose (norm v) 1 = false.
Proof.
  intro Hn; destruct (isclose (norm v) 1) eqn:E; [apply isclose_one in E; contradiction | reflexivity].
Qed.

Lemma isclose_zero a b : isclose (dot a b) 0 = true <-> orthogonal_within a b.
Proof.
  unfold isclose, orthogonal_within; rewrite Rminus_0_r, Rabs_R0.
  replace (1e-08 + 1e-05 * 0) with 1e-08 by ring.
  destruct (Rle_dec _ _); split; intro; try reflexivity; try assumption; try contradiction; discriminate.
Qed.

Lemma isclose_zero_false a b : ~ orthogonal_within a b -> isclose (dot a b) 0 = false.
Proof.
  intro Hn; destruct (isclose (dot a b) 0) eqn:E; [apply isclose_zero in E; contradiction | reflexivity].
Qed.

(** C6: [_set_frame] stores [(p, q, w)] when the three vectors have unit
    norm and are pairwise orthogonal within numpy's [allclose] tolerance
    (the redraw that follows does not touch the frame); otherwise it
    raises a [ValueError] naming the failed check and leaves the plotter,
    its frame included, unchanged. *)
Theorem set_frame_validation :
  forall (BE : Backend) st p q w,
  (unit_within p /\ unit_within q /\ unit_within w /\
   orthogonal_within p q /\ orthogonal_within q w /\ orthogonal_within w p ->
   frame (snd (set_frame p q w st)) = Some (p, q, w)) /\
  (~ unit_within p \/ ~ unit_within q \/ ~ unit_within w ->
   set_frame p q w st = (Err (ValueError "Vectors must be unit."), st)) /\
  (unit_within p /\ unit_within q /\ unit_within w ->
   ~ orthogonal_within p q \/ ~ orthogonal_within q w \/ ~ orthogonal_within w p ->
   set_frame p q w st = (Err (ValueError "Vectors must be mutually orthogonal."), st)).
Proof.
  intros BE st p q w; split; [| split].
  - intros [Up [Uq [Uw [Opq [Oqw Owp]]]]].
    rewrite <- isclose_one in Up, Uq, Uw; rewrite <- isclose_zero in Opq, Oqw, Owp.
    unfold set_frame, allclose; simpl.
    rewrite Up, Uq, Uw, Opq, Oqw, Owp; simpl.
    unfold bind, modify, get; simpl.
    destruct (trajectories st); [reflexivity |].
    match goal with |- frame (snd (redraw ?s)) = _ => rewrite (redraw_state s) end.
    reflexivity.
  - intros Hn; unfold set_frame, allclose; simpl.
    destruct Hn as [Hn | [Hn | Hn]]; apply isclose_one_false in Hn; rewrite Hn;
      [| destruct (isclose (norm p) 1)
       | destruct (isclose (norm p) 1), (isclose (norm q) 1)]; reflexivity.
  - intros [Up [Uq Uw]] Hn.
    rewrite <- isclose_one in Up, Uq, Uw.
    unfold set_frame, allclose; simpl; rewrite Up, Uq, Uw; simpl.
    destruct Hn as [Hn | [Hn | Hn]]; apply isclose_zero_false in Hn; rewrite Hn;
      [| destruct (isclose (dot p q) 0)
       | destruct (isclose (dot p q) 0), (isclose (dot q w) 0)]; reflexivity.
Qed.

Lemma norm_on_axis_z z : 0 <= z -> norm (mkVec3 0 0 z) = z.
Proof.
  intro Hz; unfold norm, dot; simpl.
  replace (0 * 0 + 0 * 0 + z * z) with (z * z) by ring.
  apply sqrt_square; exact Hz.
Qed.

Lemma unit_within_exact v : norm v = 1 -> unit_within v.
Proof. intro E; unfold unit_within; rewrite E, Rminus_diag, Rabs_R0; lra. Qed.

Lemma orthogonal_within_exact a b : dot a b = 0 -> orthogonal_within a b.
Proof. intro E; unfold orthogonal_within; rewrite E, Rabs_R0; lra. Qed.

Lemma unit_within_e1 : unit_within e1.
Proof. apply unit_within_exact, norm_on_axis; lra. Qed.
Lemma unit_within_e2 : unit_within e2.
Proof. apply unit_within_exact, norm_on_axis_y; lra. Qed.
Lemma unit_within_e3 : unit_within e3.
Proof. apply unit_within_exact, norm_on_axis_z; lra. Qed.

Lemma not_unit_within_2e1 : ~ unit_within (mkVec3 2 0 0).
Proof. unfold unit_within; rewrite norm_on_axis by lra; rewrite Rabs_right; lra. Qed.

Lemma not_orthogonal_within_e1 : ~ orthogonal_within e1 e1.
Proof. unfold orthogonal_within, dot, e1; simpl; rewrite Rabs_right; lra. Qed.

Lemma set_frame_validation_witness :
  frame (snd (set_frame (BE := ok_backend) e1 e2 e3 earth_plotter))
    = Some (e1, e2, e3) /\
  set_frame (BE := ok_backend) (mkVec3 2 0 0) e2 e3 earth_plotter =
    (Err (ValueError "Vectors must be unit."), earth_plotter) /\
  set_frame (BE := ok_backend) e1 e1 e3 earth_plotter =
    (Err (ValueError "Vectors must be mutually orthogonal."), earth_plotter).
Proof.
  split; [| split].
  - apply (proj1 (set_frame_validation ok_backend earth_plotter e1 e2 e3)).
    repeat split; try apply unit_within_e1; try apply unit_within_e2; try apply unit_within_e3;
      apply orthogonal_within_exact; unfold dot, e1, e2, e3; simpl; ring.
  - apply (proj1 (proj2 (set_frame_validation ok_backend earth_plotter
                            (mkVec3 2 0 0) e2 e3))).
    left; apply not_unit_within_2e1.
  - apply (proj2 (proj2 (set_frame_validation ok_backend earth_plotter e1 e1 e3))).
    + split; [apply unit_within_e1 | split; [apply unit_within_e1 | apply unit_within_e3]].
    + left; apply not_orthogonal_within_e1.
Defined.

(** ** Projection *)

Lemma dot_comm a b : dot a b = dot b a.
Proof. unfold dot; ring. Qed.

Lemma dot_vsub_l a b c : dot (vsub a b) c = dot a c - dot b c.
Proof. unfold dot, vsub; simpl; ring. Qed.

Lemma dot_vscale_l k a c : dot (vscale k a) c = k * dot a c.
Proof. unfold dot, vscale; simpl; ring. Qed.

Lemma dot_vadd_l a b c : dot (vadd a b) c = dot a c + dot b c.
Proof. unfold dot, vadd; simpl; ring. Qed.

Lemma norm_one_dot v : norm v = 1 -> dot v v = 1.
Proof.
  unfold norm; intro E.
  assert (0 <= dot v v) by (unfold dot; nra).
  rewrite <- (sqrt_sqrt (dot v v)) by assumption; rewrite E; ring.
Qed.

(** C7: with an orthonormal frame [(p, q, w)] set, [_project] of points
    [a * p + b * q] of the [(p, q)] plane returns their coefficients
    [a] and [b], in order, and leaves the plotter unchanged. *)
Theorem project_plane_points :
  forall st p q w (ab : list (R * R)),
  frame st = Some (p, q, w) ->
  norm p = 1 -> norm q = 1 -> norm w = 1 ->
  dot p q = 0 -> dot q w = 0 -> dot w p = 0 ->
  project (map (fun '(a, b) => vadd (vscale a p) (vscale b q)) ab) st =
  (Ok (map fst ab, map snd ab), st).
Proof.
  intros st p q w ab Hf Np Nq Nw Hpq Hqw Hwp.
  apply norm_one_dot in Np, Nq, Nw.
  unfold project, bind, get, ret; simpl; rewrite Hf; unfold project_with.
  rewrite !map_map; f_equal; f_equal; f_equal; apply map_ext; intros [a b];
    rewrite dot_vsub_l, !dot_vscale_l, !dot_vadd_l, !dot_vscale_l.
  - simpl fst; rewrite (dot_comm q p), (dot_comm p w), Hpq, Hwp, Np; ring.
  - simpl snd; rewrite (dot_comm p w), (dot_comm w q), Hpq, Hqw, Nq; ring.
Qed.

Lemma project_plane_points_witness :
  project (map (fun '(a, b) => vadd (vscale a e1) (vscale b e2)) [(3, 4); (-2, 5)])
    (set_frame_field earth_plotter (Some (e1, e2, e3))) =
  (Ok ([3; -2], [4; 5]), set_frame_field earth_plotter (Some (e1, e2, e3))).
Proof.
  apply (project_plane_points (set_frame_field earth_plotter (Some (e1, e2, e3))) e1 e2 e3
           [(3, 4); (-2, 5)]);
    [reflexivity | apply norm_on_axis | apply norm_on_axis_y | apply norm_on_axis_z
    | unfold dot, e1, e2, e3; simpl; ring .. ]; lra.
Defined.

(** ** The position marker *)

Section Marker.

Context {BE : Backend}.

Lemma plot_position_draws st b p l c cs :
  attractor st = Some b ->
  plot_position p l (c :: cs) st =
  lift (_draw_point (position_radius (attractor_radius st) b p) c l (Some p)) st.
Proof. intro Hb; unfold plot_position, bind, get; simpl; rewrite Hb; reflexivity. Qed.

End Marker.

Lemma Rmin_half x y : Rmin (x * 0.5) (y * 0.5) = 0.5 * Rmin x y.
Proof. unfold Rmin; destruct (Rle_dec (x * 0.5) (y * 0.5)), (Rle_dec x y); lra. Qed.

Lemma marker_radius_5000 : position_radius (Fin 10000) Earth (mkVec3 20000 0 0) = 5000.
Proof.
  unfold position_radius; rewrite norm_on_axis by lra; unfold Earth; simpl.
  rewrite Rmin_left; lra.
Qed.

(** C8 (as stated, refuted): around the Earth ([R = 6371] km) with an
    attractor radius of 10000 km and a position at 20000 km, the claim
    gives [0.5 * min(10000 * 0.5, (20000 - 6371) * 0.5) = 2500] km, but
    [_plot_position] draws the marker with radius 5000 km: a backend that
    only draws radius 2500 rejects the call, one that only draws radius
    5000 accepts it. *)
Lemma marker_radius_not_quartered :
  0.5 * Rmin (10000 * 0.5) ((norm (mkVec3 20000 0 0) - body_R Earth) * 0.5) = 2500 /\
  fst (plot_position (BE := probe_backend 2500) (mkVec3 20000 0 0) "x" ["c"%string]
         marker_plotter) = Err HookError /\
  fst (plot_position (BE := probe_backend 5000) (mkVec3 20000 0 0) "x" ["c"%string]
         marker_plotter) = Ok tt.
Proof.
  split; [| split].
  - rewrite norm_on_axis by lra; unfold Earth; simpl; rewrite Rmin_left; lra.
  - rewrite (plot_position_draws (BE := probe_backend 2500) marker_plotter Earth) by reflexivity.
    change (attractor_radius marker_plotter) with (Fin 10000); rewrite marker_radius_5000.
    simpl; destruct (Req_EM_T 5000 2500); [lra | reflexivity].
  - rewrite (plot_position_draws (BE := probe_backend 5000) marker_plotter Earth) by reflexivity.
    change (attractor_radius marker_plotter) with (Fin 10000); rewrite marker_radius_5000.
    simpl; destruct (Req_EM_T 5000 5000); [reflexivity | lra].
Qed.

(** C8 (amended): with the attractor [b] set and at least one color,
    [_plot_position] draws the marker with radius
    [min(A * 0.5, (|position| - b.R) * 0.5)], i.e. half of the minimum of
    the attractor radius [A] and [|position| - b.R]; before any radius
    has been computed ([A] infinite) this is [(|position| - b.R) * 0.5]. *)
Theorem marker_radius_half_min :
  forall (BE : Backend) st b p l c cs,
  attractor st = Some b ->
  (forall a, attractor_radius st = Fin a ->
     plot_position p l (c :: cs) st =
     lift (_draw_point (0.5 * Rmin a (norm p - body_R b)) c l (Some p)) st) /\
  (attractor_radius st = Inf ->
     plot_position p l (c :: cs) st =
     lift (_draw_point (0.5 * (norm p - body_R b)) c l (Some p)) st).
Proof.
  intros BE st b p l c cs Hb; rewrite (plot_position_draws st b p l c cs Hb).
  split; [intros a Ha | intro Ha]; rewrite Ha; unfold position_radius.
  - rewrite Rmin_half; reflexivity.
  - rewrite Rmult_comm; reflexivity.
Qed.

Lemma marker_radius_half_min_witness :
  plot_position (BE := ok_backend) (mkVec3 20000 0 0) "x" ["c"%string] marker_plotter =
  lift (_draw_point (Backend := ok_backend) (0.5 * Rmin 10000 (norm (mkVec3 20000 0 0) - 6371))
          "c"%string "x"%string (Some (mkVec3 20000 0 0))) marker_plotter /\
  plot_position (BE := ok_backend) (mkVec3 20000 0 0) "x" ["c"%string] earth_plotter =
  lift (_draw_point (Backend := ok_backend) (0.5 * (norm (mkVec3 20000 0 0) - 6371))
          "c"%string "x"%string (Some (mkVec3 20000 0 0))) earth_plotter.
Proof.
  split.
  - apply (proj1 (marker_radius_half_min ok_backend marker_plotter Earth (mkVec3 20000 0 0)
                    "x"%string "c"%string [] eq_refl)); reflexivity.
  - apply (proj2 (marker_radius_half_min ok_backend earth_plotter Earth (mkVec3 20000 0 0)
                    "x"%string "c"%string [] eq_refl)); reflexivity.
Defined.

(** ** The time range of [plot_body_orbit] *)

Lemma nth_map_seq (f : nat -> R) n k :
  (k < n)%nat -> nth k (map f (seq 0 n)) 0 = f k.
Proof.
  intro Hk.
  rewrite (nth_indep (map f (seq 0 n)) 0 (f 0%nat)) by (rewrite length_map, length_seq; exact Hk).
  rewrite map_nth, seq_nth by exact Hk; reflexivity.
Qed.

Lemma time_range_spec E P n :
  (2 <= n)%nat ->
  List.length (time_range E n (E + P)) = n /\
  forall k, (k < n)%nat -> nth k (time_range E n (E + P)) 0 = E + INR k * (P / INR (n - 1)).
Proof.
  intro Hn; destruct n as [| [| m]]; [lia | lia |].
  unfold time_range, linspace01; rewrite map_map; split.
  - rewrite length_map, length_seq; reflexivity.
  - intros k Hk; rewrite nth_map_seq by exact Hk.
    replace (S (S m) - 1)%nat with (S m) by lia.
    unfold Rdiv; ring.
Qed.

Lemma time_range_ends E P n :
  (2 <= n)%nat ->
  nth 0 (time_range E n (E + P)) 0 = E /\ nth (n - 1) (time_range E n (E + P)) 0 = E + P.
Proof.
  intro Hn; destruct (time_range_spec E P n Hn) as [_ Hk].
  rewrite (Hk 0%nat), (Hk (n - 1)%nat) by lia.
  assert (0 < INR (n - 1)) by (apply lt_0_INR; lia).
  split; [simpl; ring | field; lra].
Qed.

(** C9 (as stated, refuted): with [num_points = 1], [plot_body_orbit]
    of Mars at epoch 0 (period 687) succeeds but stores a single sample,
    the one at epoch 0; the sample at the end of the period is absent,
    so the range does not span [[E, E + P]]. *)
Lemma one_point_orbit_not_spanning :
  fst one_point_run = Ok tt /\
  exists t, trajectories (snd one_point_run) = [t] /\
            List.length (coordinates t) = 1%nat /\
            ~ In (ephem_position (Collaborators := test_collab) Mars (Some Sun) EARTH_EQUATOR (0 + 687))
                 (coordinates t).
Proof.
  split; [reflexivity |].
  eexists; split; [reflexivity | split; [reflexivity |]].
  simpl; intros [E | []]; injection E; lra.
Qed.

Section BodyOrbit.

Context {BE : Backend}.
Context {Orbit : Type} {CO : Collaborators Orbit}.

Lemma plot_body_orbit_ok body E P lbl color trail st st' :
  mean_elements_period body E = Ok P ->
  plot_body_orbit body E lbl color trail st = (Ok tt, st') ->
  exists t, trajectories st' = trajectories st ++ [t] /\
    coordinates t = ephem_sample body (time_range E (num_points st) (E + P)) (body_parent body) (plane st) /\
    position t = hd_error (coordinates t) /\ dashed t = false.
Proof.
  intros Hp E0; unfold plot_body_orbit in E0.
  apply bind_inv in E0 as [cs [st1 [E1 E0]]]; apply lift_inv in E1 as [_ ->].
  apply bind_inv in E0 as [[] [st2 [E2 E0]]].
  apply bind_inv in E0 as [period [st3 [E3 E0]]]; apply lift_inv in E3 as [Ep ->].
  rewrite Hp in Ep; injection Ep as <-.
  apply bind_inv in E0 as [st4 [st5 [E4 E0]]]; apply get_inv in E4 as [-> ->].
  destruct (set_attractor_result _ _ _ _ E2) as [T2 [N2 P2]].
  cbv beta zeta in E0; rewrite N2, P2 in E0.
  destruct (ephem_sample body (time_range E (num_points st) (E + P))
              (body_parent body) (plane st)) as [| r0 rs] eqn:Ec; [discriminate |].
  apply add_trajectory_result in E0.
  eexists; split; [rewrite E0, T2; reflexivity |]; simpl; auto.
Qed.

End BodyOrbit.

(** C9 (amended): with at least two sample points configured ([n],
    150 by default), a successful [plot_body_orbit(body, E)] where the
    mean-elements period is [P] stores one non-dashed trajectory whose
    coordinates are the ephemeris samples at [n] evenly spaced epochs
    [E + k * P / (n - 1)], from [E] to [E + P], and whose current
    position is the first sample, the one at [E]. *)
Theorem body_orbit_spans_period :
  forall (BE : Backend) (Orbit : Type) (CO : Collaborators Orbit) body E P lbl color trail st st',
  (2 <= num_points st)%nat ->
  mean_elements_period body E = Ok P ->
  plot_body_orbit body E lbl color trail st = (Ok tt, st') ->
  exists t epochs,
    trajectories st' = trajectories st ++ [t] /\
    coordinates t = map (ephem_position body (body_parent body) (plane st)) epochs /\
    List.length epochs = num_points st /\
    (forall k, (k < num_points st)%nat ->
       nth k epochs 0 = E + INR k * (P / INR (num_points st - 1))) /\
    nth 0 epochs 0 = E /\
    nth (num_points st - 1) epochs 0 = E + P /\
    position t = Some (ephem_position body (body_parent body) (plane st) E) /\
    dashed t = false /\
    num_points default_plotter = 150%nat.
Proof.
  intros BE Orbit CO body E P lbl color trail st st' Hn Hp Hrun.
  destruct (plot_body_orbit_ok body E P lbl color trail st st' Hp Hrun) as [t [T [C [Pos D]]]].
  destruct (time_range_spec E P _ Hn) as [L K].
  destruct (time_range_ends E P _ Hn) as [E0 E1].
  exists t, (time_range E (num_points st) (E + P)).
  split; [exact T | split; [exact C | split; [exact L | split; [exact K |]]]].
  split; [exact E0 | split; [exact E1 | split; [| split; [exact D | reflexivity]]]].
  rewrite Pos, C.
  destruct (time_range E (num_points st) (E + P)) as [| e0 es] eqn:Et;
    [simpl in L; lia | simpl in E0 |- *; rewrite E0; reflexivity].
Qed.

Lemma body_orbit_spans_period_witness :
  exists t epochs,
    trajectories (snd (plot_body_orbit (BE := ok_backend) (CO := test_collab) Mars 0 None None false
                         (init_plotter 3 None))) =
      trajectories (init_plotter 3 None) ++ [t] /\
    coordinates t = map (ephem_position (Collaborators := test_collab) Mars (Some Sun) EARTH_EQUATOR) epochs /\
    List.length epochs = 3%nat /\
    (forall k, (k < 3)%nat -> nth k epochs 0 = 0 + INR k * (687 / INR (3 - 1))) /\
    nth 0 epochs 0 = 0 /\
    nth (3 - 1) epochs 0 = 0 + 687 /\
    position t = Some (ephem_position (Collaborators := test_collab) Mars (Some Sun) EARTH_EQUATOR 0) /\
    dashed t = false /\
    num_points default_plotter = 150%nat.
Proof.
  apply (body_orbit_spans_period ok_backend unit test_collab Mars 0 687 None None false
           (init_plotter 3 None)); [simpl; lia | reflexivity | reflexivity].
Defined.

(** * Further properties of the module *)

(** ** Helper lemmas *)

Lemma min_distances_empty ts t :
  In t ts -> coordinates t = [] -> min_distances ts = Err ReductionError.
Proof.
  induction ts as [| t' ts IH]; intros Hin He; [destruct Hin |].
  destruct Hin as [<- | Hin]; simpl.
  - rewrite He; reflexivity.
  - destruct (coordinates t'); simpl; [reflexivity |].
    rewrite (IH Hin He); reflexivity.
Qed.

Lemma set_attractor_none a st :
  attractor st = None -> set_attractor a st = (Ok tt, set_attractor_field st a).
Proof. intro Hb; unfold set_attractor, bind, get; simpl; rewrite Hb; reflexivity. Qed.

Lemma set_attractor_conflict a st cur :
  attractor st = Some cur -> py_is a (Some cur) = false ->
  set_attractor a st =
  (Err (NotImplementedError (String.append "Attractor has already been set to " (body_name cur))), st).
Proof. intros Hb Hn; unfold set_attractor, bind, get; simpl; rewrite Hb, Hn; reflexivity. Qed.

Lemma set_attractor_kept a : keeps attractor_kept (set_attractor a).
Proof.
  intros st b Hb; unfold set_attractor, bind, get; simpl; rewrite Hb.
  destruct py_is; exact Hb.
Qed.

#[export] Instance attractor_kept_preorder : PreOrder attractor_kept.
Proof. split; [intros st b H; exact H | intros a b c H1 H2 x Hx; apply H2, H1, Hx]. Qed.

Lemma is_min_distance_unique m m' ts ts' :
  (forall t, In t ts <-> In t ts') ->
  is_min_distance m ts -> is_min_distance m' ts' -> m = m'.
Proof.
  intros Hs [[t [x [Ht [Hx Ex]]]] Hle] [[t' [x' [Ht' [Hx' Ex']]]] Hle'].
  apply Hs in Ht; apply Hs in Ht'.
  specialize (Hle t' x' Ht' Hx'); specialize (Hle' t x Ht Hx); lra.
Qed.

Section Further.

Context {BE : Backend}.
Context {Orbit : Type} {CO : Collaborators Orbit}.

#[local] Hint Resolve set_attractor_kept : keeps.

Lemma add_trajectory_empty_fails c p l cs d st t :
  In t (trajectories st ++ [mkTrajectory c p l cs d]) -> coordinates t = [] ->
  fst (add_trajectory c p l cs d st) = Err ReductionError.
Proof.
  intros Hin He; unfold add_trajectory, redraw_attractor, bind, modify, get, lift; simpl.
  rewrite (min_distances_empty _ t Hin He); reflexivity.
Qed.

Lemma exec_call_kept (c : Call Orbit) : keeps attractor_kept (exec_call c).
Proof.
  destruct c; simpl;
    unfold plot_trajectory, plot, plot_body_orbit, set_body_frame, set_orbit_frame,
      set_frame, add_trajectory, redraw_attractor;
    keeps_tac; try (let x := fresh in let Hx := fresh in intros x Hx; exact Hx).
Qed.

Lemma exec_calls_kept (cs : list (Call Orbit)) : keeps attractor_kept (exec_calls cs).
Proof.
  induction cs as [| c cs IH]; simpl.
  - apply keeps_ret; typeclasses eauto.
  - apply keeps_bind; [typeclasses eauto | apply exec_call_kept | intros _; exact IH].
Qed.

Lemma exec_calls_setup (cs : list (Call Orbit)) : keeps same_setup (exec_calls cs).
Proof.
  induction cs as [| c cs IH]; simpl.
  - apply keeps_ret; typeclasses eauto.
  - apply keeps_bind; [typeclasses eauto | apply exec_call_setup | intros _; exact IH].
Qed.

Lemma set_frame_outcome p q w st :
  snd (set_frame p q w st) = st \/ snd (set_frame p q w st) = set_frame_field st (Some (p, q, w)).
Proof.
  unfold set_frame.
  destruct (negb (allclose [norm p; norm q; norm w] 1)); [left; reflexivity |].
  destruct (negb (allclose [dot p q; dot q w; dot w p] 0)); [left; reflexivity |].
  right; unfold bind, modify, get; simpl.
  destruct (trajectories st); [reflexivity |].
  match goal with |- snd (redraw ?s) = _ => rewrite (redraw_state s) end.
  reflexivity.
Qed.

Lemma redraw_list_ok ts st :
  fst (redraw_list ts st) = Ok tt <->
  Forall (fun t => fst (plot_coordinates_and_position t st) = Ok tt) ts.
Proof.
  induction ts as [| t ts IH]; simpl.
  - split; [constructor | reflexivity].
  - unfold bind.
    pose proof (plot_coordinates_and_position_state t st) as S.
    destruct (plot_coordinates_and_position t st) as [[[] | e] st'] eqn:E;
      unfold same_state in S; simpl in S; subst st'.
    + rewrite IH; split; intro H.
      * constructor; [rewrite E; reflexivity | exact H].
      * inversion H; assumption.
    + simpl; split; intro H; [discriminate |].
      inversion H as [| ? ? H1]; rewrite E in H1; discriminate.
Qed.

Lemma plot_colors_err orbit lbl color trail st e :
  _get_colors color trail = Err e -> plot orbit lbl color trail st = (Err e, st).
Proof. intro Hc; unfold plot, bind, lift, raise; rewrite Hc; reflexivity. Qed.

Lemma plot_body_orbit_colors_err body epoch lbl color trail st e :
  _get_colors (match color with None => BODY_COLORS (body_name body) | Some c => Some c end) trail
    = Err e ->
  plot_body_orbit body epoch lbl color trail st = (Err e, st).
Proof. intro Hc; unfold plot_body_orbit, bind, lift, raise; rewrite Hc; reflexivity. Qed.

Lemma plot_trajectory_colors_err coords lbl color trail st e :
  _get_colors color trail = Err e -> attractor st <> None ->
  plot_trajectory coords lbl color trail st = (Err e, st).
Proof.
  intros Hc Hb; unfold plot_trajectory, bind, get, lift, raise; simpl.
  destruct (attractor st); [rewrite Hc; reflexivity | congruence].
Qed.

End Further.

(** ** Color lookup before any change *)

(** X1: [_plot_trajectory] (with an attractor set), [_plot] and
    [_plot_body_orbit] call [_get_colors] before they touch the plotter:
    when it raises, the call raises the same exception and the plotter
    is unchanged (in particular [_plot] does not set the attractor). *)
Theorem colors_failure_changes_nothing :
  forall (BE : Backend) (Orbit : Type) (CO : Collaborators Orbit) st e,
  (forall coords lbl color trail,
     _get_colors color trail = Err e -> attractor st <> None ->
     plot_trajectory coords lbl color trail st = (Err e, st)) /\
  (forall orbit lbl color trail,
     _get_colors color trail = Err e -> plot orbit lbl color trail st = (Err e, st)) /\
  (forall body epoch lbl color trail,
     _get_colors (match color with None => BODY_COLORS (body_name body) | Some c => Some c end)
       trail = Err e ->
     plot_body_orbit body epoch lbl color trail st = (Err e, st)).
Proof.
  intros BE Orbit CO st e; split; [| split].
  - intros; apply plot_trajectory_colors_err; assumption.
  - intros; apply plot_colors_err; assumption.
  - intros; apply plot_body_orbit_colors_err; assumption.
Qed.

Lemma colors_failure_changes_nothing_witness :
  plot_trajectory (BE := base_hooks) (CO := test_collab) [e1] None None false earth_plotter =
    (Err (NotImplementedError ""), earth_plotter) /\
  plot (BE := base_hooks) (CO := test_collab) tt None None false default_plotter =
    (Err (NotImplementedError ""), default_plotter) /\
  plot_body_orbit (BE := base_hooks) (CO := test_collab) Mars 0 None None false earth_plotter =
    (Err (NotImplementedError ""), earth_plotter).
Proof.
  split; [| split].
  - apply (proj1 (colors_failure_changes_nothing base_hooks unit test_collab earth_plotter
                    (NotImplementedError ""))); [reflexivity | discriminate].
  - apply (proj1 (proj2 (colors_failure_changes_nothing base_hooks unit test_collab
                           default_plotter (NotImplementedError "")))); reflexivity.
  - apply (proj2 (proj2 (colors_failure_changes_nothing base_hooks unit test_collab
                           earth_plotter (NotImplementedError "")))); reflexivity.
Defined.

(** X2: On [BaseOrbitPlotter] itself, whose hooks are not implemented, every
    plot call raises and leaves the plotter unchanged: the base class
    never stores a trajectory. *)
Theorem base_plotter_cannot_plot :
  forall (Orbit : Type) (CO : Collaborators Orbit) (c : Call Orbit) st,
  is_plot_call c = true ->
  snd (exec_call (BE := base_hooks) c st) = st /\
  exists e, fst (exec_call (BE := base_hooks) c st) = Err e.
Proof.
  intros Orbit CO c st Hc; destruct c; try discriminate; cbn [exec_call].
  - destruct (attractor st) eqn:Hb.
    + rewrite (plot_trajectory_colors_err (BE := base_hooks) _ _ _ _ st (NotImplementedError ""))
        by (reflexivity || congruence).
      split; [reflexivity | eexists; reflexivity].
    + unfold plot_trajectory, bind, get; simpl; rewrite Hb.
      split; [reflexivity | eexists; reflexivity].
  - rewrite (plot_colors_err (BE := base_hooks) _ _ _ _ st (NotImplementedError "")) by reflexivity.
    split; [reflexivity | eexists; reflexivity].
  - rewrite (plot_body_orbit_colors_err (BE := base_hooks) _ _ _ _ _ st (NotImplementedError ""))
      by reflexivity.
    split; [reflexivity | eexists; reflexivity].
Qed.

Lemma base_plotter_cannot_plot_witness :
  snd (exec_call (BE := base_hooks) (CO := test_collab) (CPlot tt None None false) default_plotter)
    = default_plotter /\
  exists e, fst (exec_call (BE := base_hooks) (CO := test_collab) (CPlot tt None None false)
                   default_plotter) = Err e.
Proof. apply (base_plotter_cannot_plot unit test_collab (CPlot tt None None false)); reflexivity. Defined.

(** ** The attractor *)

(** X3: With an attractor [cur] set and the colors found, [plot] of an orbit
    around another body, and [plot_body_orbit] of a body whose parent is
    not [cur], raise [NotImplementedError] and leave the plotter
    unchanged: no trajectory is added. *)
Theorem plot_other_attractor_rejected :
  forall (BE : Backend) (Orbit : Type) (CO : Collaborators Orbit) st cur cs,
  attractor st = Some cur ->
  (forall orbit lbl color trail,
     _get_colors color trail = Ok cs ->
     py_is (Some (orbit_attractor orbit)) (Some cur) = false ->
     plot orbit lbl color trail st =
     (Err (NotImplementedError (String.append "Attractor has already been set to " (body_name cur))), st)) /\
  (forall body epoch lbl color trail,
     _get_colors (match color with None => BODY_COLORS (body_name body) | Some c => Some c end)
       trail = Ok cs ->
     py_is (body_parent body) (Some cur) = false ->
     plot_body_orbit body epoch lbl color trail st =
     (Err (NotImplementedError (String.append "Attractor has already been set to " (body_name cur))), st)).
Proof.
  intros BE Orbit CO st cur cs Hb; split.
  - intros orbit lbl color trail Hc Hn.
    unfold plot, bind, lift, ret; rewrite Hc.
    rewrite (set_attractor_conflict _ st cur Hb Hn); reflexivity.
  - intros body epoch lbl color trail Hc Hn.
    unfold plot_body_orbit, bind, lift, ret; rewrite Hc.
    rewrite (set_attractor_conflict _ st cur Hb Hn); reflexivity.
Qed.

Lemma plot_other_attractor_rejected_witness :
  plot (BE := ok_backend) (CO := test_collab) tt None None false mars_plotter =
    (Err (NotImplementedError "Attractor has already been set to Mars"), mars_plotter) /\
  plot_body_orbit (BE := ok_backend) (CO := test_collab) Mars 0 None None false earth_plotter =
    (Err (NotImplementedError "Attractor has already been set to Earth"), earth_plotter).
Proof.
  split.
  - apply (proj1 (plot_other_attractor_rejected ok_backend unit test_collab mars_plotter Mars
                    ["#1f77b4"%string] eq_refl)); reflexivity.
  - apply (proj2 (plot_other_attractor_rejected ok_backend unit test_collab earth_plotter Earth
                    ["#1f77b4"%string] eq_refl)); reflexivity.
Defined.

(** X4: Once the attractor is set to [b], no sequence of calls, whether its
    calls return or raise, changes it. *)
Theorem attractor_fixed_once_set :
  forall (BE : Backend) (Orbit : Type) (CO : Collaborators Orbit) (cs : list (Call Orbit)) st b,
  attractor st = Some b -> attractor (snd (exec_calls cs st)) = Some b.
Proof. intros BE Orbit CO cs st b Hb; apply (exec_calls_kept cs st b Hb). Qed.

Lemma attractor_fixed_once_set_witness :
  attractor (snd (exec_calls (BE := ok_backend) (CO := test_collab)
                    [CSetAttractor (Some Mars); CPlotBodyOrbit Mars 0 None None false;
                     CPlot tt None None false] earth_plotter)) = Some Earth.
Proof.
  apply (attractor_fixed_once_set ok_backend unit test_collab
           [CSetAttractor (Some Mars); CPlotBodyOrbit Mars 0 None None false;
            CPlot tt None None false] earth_plotter Earth); reflexivity.
Defined.

(** X5: On a plotter without attractor, [plot] and [plot_body_orbit] set the
    attractor (to the orbit's attractor, to the body's parent) as soon as
    the colors are found, and it stays set even when the call raises
    later (sampling, drawing). *)
Theorem plot_sets_attractor_first :
  forall (BE : Backend) (Orbit : Type) (CO : Collaborators Orbit) st cs,
  attractor st = None ->
  (forall orbit lbl color trail,
     _get_colors color trail = Ok cs ->
     attractor (snd (plot orbit lbl color trail st)) = Some (orbit_attractor orbit)) /\
  (forall body epoch lbl color trail,
     _get_colors (match color with None => BODY_COLORS (body_name body) | Some c => Some c end)
       trail = Ok cs ->
     attractor (snd (plot_body_orbit body epoch lbl color trail st)) = body_parent body).
Proof.
  intros BE Orbit CO st cs Hb; split.
  - intros orbit lbl color trail Hc.
    unfold plot, bind, lift, ret, get; rewrite Hc.
    rewrite (set_attractor_none _ st Hb); simpl.
    rewrite (add_trajectory_attractor _ _ _ _ _ (set_attractor_field st _)); reflexivity.
  - intros body epoch lbl color trail Hc.
    unfold plot_body_orbit, bind, lift, ret, raise, get; rewrite Hc.
    rewrite (set_attractor_none _ st Hb); simpl.
    destruct (mean_elements_period body epoch); simpl; [| reflexivity].
    destruct ephem_sample; simpl; [reflexivity |].
    rewrite (add_trajectory_attractor _ _ _ _ _ (set_attractor_field st _)); reflexivity.
Qed.

Lemma plot_sets_attractor_first_witness :
  attractor (snd (plot (BE := ok_backend) (CO := test_collab) tt None None false default_plotter))
    = Some Earth /\
  attractor (snd (plot_body_orbit (BE := ok_backend) (CO := test_collab) Mars 0 None None false
                    default_plotter)) = Some Sun.
Proof.
  split.
  - apply (proj1 (plot_sets_attractor_first ok_backend unit test_collab default_plotter
                    ["#1f77b4"%string] eq_refl)); reflexivity.
  - apply (proj2 (plot_sets_attractor_first ok_backend unit test_collab default_plotter
                    ["#1f77b4"%string] eq_refl)); reflexivity.
Defined.

(** ** Configuration and frame *)

(** X6: No sequence of calls changes the number of sample points or the
    plane the plotter was created with. *)
Theorem setup_never_changes :
  forall (BE : Backend) (Orbit : Type) (CO : Collaborators Orbit) (cs : list (Call Orbit)) st,
  num_points (snd (exec_calls cs st)) = num_points st /\
  plane (snd (exec_calls cs st)) = plane st.
Proof. intros BE Orbit CO cs st; apply (exec_calls_setup cs st). Qed.

(** X7: [set_frame], [set_orbit_frame] and [set_body_frame] change nothing
    but the frame: the plotter is left as it was, or only its frame is
    replaced by the new one (the frame of the orbit's [pqw()], the orbit
    of [set_body_frame] being brought to the plotter's plane), also when
    the redraw that follows raises. *)
Theorem frame_setters_change_only_frame :
  forall (BE : Backend) (Orbit : Type) (CO : Collaborators Orbit) st,
  (forall p q w,
     snd (set_frame p q w st) = st \/
     snd (set_frame p q w st) = set_frame_field st (Some (p, q, w))) /\
  (forall o,
     snd (set_orbit_frame o st) = st \/
     snd (set_orbit_frame o st) = set_frame_field st (Some (orbit_pqw o))) /\
  (forall body epoch,
     snd (set_body_frame body epoch st) = st \/
     snd (set_body_frame body epoch st) =
       set_frame_field st
         (Some (orbit_pqw (orbit_change_plane (orbit_from_body_ephem body epoch) (plane st))))).
Proof.
  intros BE Orbit CO st.
  assert (Ho : forall o, snd (set_orbit_frame o st) = st \/
                         snd (set_orbit_frame o st) = set_frame_field st (Some (orbit_pqw o))).
  { intro o; unfold set_orbit_frame.
    destruct (orbit_pqw o) as [[p q] w]; apply set_frame_outcome. }
  split; [intros p q w; apply set_frame_outcome | split; [exact Ho |]].
  intros body epoch; unfold set_body_frame, bind, get; simpl; apply Ho.
Qed.

(** ** Projection *)

(** X8: [_project] with a frame [(p, q, w)] whose [w] is orthogonal to [p]
    and [q] returns, for each point [r], the coordinates [r . p] and
    [r . q]: the component of [r] along [w] is ignored; before a frame
    is set it raises [AttributeError]; whatever the frame stored (also
    one orthogonal only within [_set_frame]'s tolerance), it never
    changes the plotter. *)
Theorem project_drops_normal :
  forall st rr,
  (forall p q w, frame st = Some (p, q, w) -> dot w p = 0 -> dot w q = 0 ->
     project rr st = (Ok (map (fun r => dot r p) rr, map (fun r => dot r q) rr), st)) /\
  (frame st = None -> project rr st = (Err AttributeError, st)) /\
  snd (project rr st) = st.
Proof.
  intros st rr; split; [| split].
  - intros p q w Hf Hwp Hwq.
    unfold project, bind, get, ret; simpl; rewrite Hf; unfold project_with.
    rewrite !map_map; f_equal; f_equal; f_equal; apply map_ext; intro r;
      rewrite dot_vsub_l, dot_vscale_l.
    + rewrite Hwp; ring.
    + rewrite Hwq; ring.
  - intro Hf; unfold project, bind, get, raise; simpl; rewrite Hf; reflexivity.
  - unfold project, bind, get, raise, ret; simpl; destruct (frame st); reflexivity.
Qed.

Lemma project_drops_normal_witness :
  project [mkVec3 1 2 3] (set_frame_field earth_plotter (Some (e1, e2, e3))) =
    (Ok (map (fun r => dot r e1) [mkVec3 1 2 3], map (fun r => dot r e2) [mkVec3 1 2 3]),
     set_frame_field earth_plotter (Some (e1, e2, e3))) /\
  project [mkVec3 1 2 3] earth_plotter = (Err AttributeError, earth_plotter).
Proof.
  split.
  - apply (proj1 (project_drops_normal (set_frame_field earth_plotter (Some (e1, e2, e3)))
                    [mkVec3 1 2 3]) e1 e2 e3);
      [reflexivity | unfold dot, e1, e2, e3; simpl; ring ..].
  - apply (proj2 (project_drops_normal earth_plotter [mkVec3 1 2 3])); reflexivity.
Defined.

(** ** Position marker *)

(** X9: [_plot_position] does not clamp the marker radius: for a position
    closer to the origin than the attractor's physical radius, the
    radius passed to [_draw_point] is negative, whatever the attractor
    radius. *)
Theorem marker_radius_negative_inside :
  forall (BE : Backend) st b p l c cs,
  attractor st = Some b -> norm p < body_R b ->
  exists r, r < 0 /\ plot_position p l (c :: cs) st = lift (_draw_point r c l (Some p)) st.
Proof.
  intros BE st b p l c cs Hb Hin.
  exists (position_radius (attractor_radius st) b p); split.
  - unfold position_radius; destruct (attractor_radius st) as [a |]; [| lra].
    pose proof (Rmin_r (a * 0.5) ((norm p - body_R b) * 0.5)); lra.
  - apply plot_position_draws; exact Hb.
Qed.

Lemma marker_radius_negative_inside_witness :
  exists r, r < 0 /\
    plot_position (BE := ok_backend) (mkVec3 1000 0 0) "x" ["c"%string] marker_plotter =
    lift (_draw_point (Backend := ok_backend) r "c"%string "x"%string (Some (mkVec3 1000 0 0)))
      marker_plotter.
Proof.
  apply (marker_radius_negative_inside ok_backend marker_plotter Earth); [reflexivity |].
  rewrite norm_on_axis by lra; unfold Earth; simpl; lra.
Defined.

(** ** Redrawing *)

(** X10: [_redraw] never changes the plotter, and it returns exactly when
    drawing each stored trajectory (its coordinates, and its position
    marker if it has one) returns. *)
Theorem redraw_all_or_nothing :
  forall (BE : Backend) st,
  snd (redraw st) = st /\
  (fst (redraw st) = Ok tt <->
   Forall (fun t => fst (plot_coordinates_and_position t st) = Ok tt) (trajectories st)).
Proof.
  intros BE st; split; [apply redraw_state |].
  unfold redraw, bind, get; simpl; apply redraw_list_ok.
Qed.

(** X11: A frame that passes [_set_frame]'s checks is stored; with no
    trajectory stored the call returns without calling any backend hook,
    otherwise it returns or raises as the redraw of all trajectories
    with the new frame does. *)
Theorem valid_frame_redraws :
  forall (BE : Backend) st p q w,
  unit_within p -> unit_within q -> unit_within w ->
  orthogonal_within p q -> orthogonal_within q w -> orthogonal_within w p ->
  (trajectories st = [] -> set_frame p q w st = (Ok tt, set_frame_field st (Some (p, q, w)))) /\
  (trajectories st <> [] -> set_frame p q w st = redraw (set_frame_field st (Some (p, q, w)))).
Proof.
  intros BE st p q w Up Uq Uw Opq Oqw Owp.
  rewrite <- isclose_one in Up, Uq, Uw; rewrite <- isclose_zero in Opq, Oqw, Owp.
  unfold set_frame, allclose; simpl.
  rewrite Up, Uq, Uw, Opq, Oqw, Owp; simpl.
  unfold bind, modify, get; simpl.
  split; intro Ht; destruct (trajectories st); [reflexivity | discriminate | congruence | reflexivity].
Qed.

Lemma valid_frame_redraws_witness :
  (trajectories earth_plotter = [] ->
   set_frame (BE := ok_backend) e1 e2 e3 earth_plotter =
   (Ok tt, set_frame_field earth_plotter (Some (e1, e2, e3)))) /\
  (trajectories earth_plotter <> [] ->
   set_frame (BE := ok_backend) e1 e2 e3 earth_plotter =
   redraw (BE := ok_backend) (set_frame_field earth_plotter (Some (e1, e2, e3)))).
Proof.
  apply valid_frame_redraws;
    try apply unit_within_e1; try apply unit_within_e2; try apply unit_within_e3;
    apply orthogonal_within_exact; unfold dot, e1, e2, e3; simpl; ring.
Defined.

(** ** Trajectories without samples *)

(** X12: Once a trajectory with no samples is stored (as a failed
    [plot_trajectory([])] leaves it), every later plot call raises:
    the minimum distance of [_redraw_attractor] cannot be computed. *)
Theorem empty_trajectory_blocks_plots :
  forall (BE : Backend) (Orbit : Type) (CO : Collaborators Orbit) (c : Call Orbit) st t,
  is_plot_call c = true -> In t (trajectories st) -> coordinates t = [] ->
  exists e, fst (exec_call c st) = Err e.
Proof.
  intros BE Orbit CO c st t Hc Hin He.
  destruct c as [a | coords lbl color trail | orbit lbl color trail | body epoch lbl color trail
                 | p q w | orbit | body epoch]; try discriminate; simpl.
  - unfold plot_trajectory, bind, get, lift, raise; simpl.
    destruct (attractor st); [| eexists; reflexivity].
    destruct (_get_colors color trail); simpl; [| eexists; reflexivity].
    rewrite (add_trajectory_empty_fails _ _ _ _ _ st t); [eexists; reflexivity | | exact He].
    apply in_or_app; left; exact Hin.
  - unfold plot, bind, get, lift, raise; simpl.
    destruct (_get_colors color trail); simpl; [| eexists; reflexivity].
    destruct (set_attractor _ st) as [[[] | e] st2] eqn:E2; [| eexists; reflexivity].
    destruct (set_attractor_result _ _ _ _ E2) as [T2 _].
    rewrite (add_trajectory_empty_fails _ _ _ _ _ st2 t); [eexists; reflexivity | | exact He].
    rewrite T2; apply in_or_app; left; exact Hin.
  - unfold plot_body_orbit, bind, get, lift, raise; simpl.
    destruct (_get_colors _ trail); simpl; [| eexists; reflexivity].
    destruct (set_attractor _ st) as [[[] | e] st2] eqn:E2; [| eexists; reflexivity].
    destruct (set_attractor_result _ _ _ _ E2) as [T2 _].
    destruct (mean_elements_period body epoch); simpl; [| eexists; reflexivity].
    destruct ephem_sample; [eexists; reflexivity |].
    rewrite (add_trajectory_empty_fails _ _ _ _ _ st2 t); [eexists; reflexivity | | exact He].
    rewrite T2; apply in_or_app; left; exact Hin.
Qed.

Lemma empty_trajectory_blocks_plots_witness :
  exists e, fst (exec_call (BE := ok_backend) (CO := test_collab) (CPlot tt None None false)
                   (snd empty_plot)) = Err e.
Proof.
  apply (empty_trajectory_blocks_plots ok_backend unit test_collab (CPlot tt None None false)
           (snd empty_plot) (mkTrajectory [] None "None" ["#1f77b4"%string] false));
    [reflexivity | left; reflexivity | reflexivity].
Defined.

(** X13: With a backend whose hooks never raise and an attractor set,
    [plot_trajectory] returns exactly when the new coordinates and every
    stored trajectory have at least one sample; otherwise it raises the
    error of numpy's [.min()] of an empty array. *)
Theorem plot_trajectory_fails_iff_empty :
  forall (BE : Backend) (Orbit : Type) (CO : Collaborators Orbit) st b coords lbl color trail,
  hooks_never_raise BE -> attractor st = Some b ->
  (coords <> [] -> Forall (fun t => coordinates t <> []) (trajectories st) ->
     fst (plot_trajectory coords lbl color trail st) = Ok tt) /\
  (coords = [] \/ Exists (fun t => coordinates t = []) (trajectories st) ->
     fst (plot_trajectory coords lbl color trail st) = Err ReductionError).
Proof.
  intros BE Orbit CO st b coords lbl color trail [Hc [Hcl [Hs Hp]]] Hb.
  destruct (Hc color trail) as [cs Ecs].
  rewrite (plot_trajectory_add coords lbl color trail st b cs Hb Ecs).
  split.
  - intros Hne Hall.
    assert (F : Forall (fun t => coordinates t <> [])
                  (trajectories st ++ [mkTrajectory coords None (py_str lbl) cs false]))
      by (apply Forall_app; split; [exact Hall | constructor; [exact Hne | constructor]]).
    destruct (min_distances_spec _ F) as [ds [Eds _]].
    unfold add_trajectory, redraw_attractor, plot_coordinates_and_position,
      bind, modify, get, lift, ret, raise; simpl.
    rewrite Eds, Hb, Hcl, Hs, Hp; reflexivity.
  - intros [-> | Hex].
    + apply (add_trajectory_empty_fails _ _ _ _ _ st (mkTrajectory [] None (py_str lbl) cs false));
        [apply in_or_app; right; left; reflexivity | reflexivity].
    + apply Exists_exists in Hex as [t [Ht He]].
      apply (add_trajectory_empty_fails _ _ _ _ _ st t); [apply in_or_app; left; exact Ht | exact He].
Qed.

Lemma ok_backend_never_raises : hooks_never_raise ok_backend.
Proof.
  split; [intros c tr; eexists; reflexivity |].
  split; [reflexivity | split; intros; reflexivity].
Qed.

Lemma plot_trajectory_fails_iff_empty_witness :
  (([e1] : list Vec3) <> [] -> Forall (fun t => coordinates t <> []) (trajectories earth_plotter) ->
   fst (plot_trajectory (BE := ok_backend) (CO := test_collab) [e1] None None false earth_plotter)
     = Ok tt) /\
  (([e1] : list Vec3) = [] \/ Exists (fun t => coordinates t = []) (trajectories earth_plotter) ->
   fst (plot_trajectory (BE := ok_backend) (CO := test_collab) [e1] None None false earth_plotter)
     = Err ReductionError).
Proof.
  apply (plot_trajectory_fails_iff_empty ok_backend unit test_collab earth_plotter Earth);
    [apply ok_backend_never_raises | reflexivity].
Defined.

(** X14: The attractor radius after two insertions into a plotter whose
    attractor is set (all samples present) does not depend on the order
    of the two insertions. *)
Theorem attractor_radius_order_independent :
  forall (BE : Backend) (Orbit : Type) (CO : Collaborators Orbit) st b t1 t2,
  attractor st = Some b ->
  Forall (fun t => coordinates t <> []) (trajectories st ++ [t1; t2]) ->
  attractor_radius
    (snd (add_trajectory (coordinates t2) (position t2) (label t2) (colors t2) (dashed t2)
            (snd (add_trajectory (coordinates t1) (position t1) (label t1) (colors t1) (dashed t1)
                    st)))) =
  attractor_radius
    (snd (add_trajectory (coordinates t1) (position t1) (label t1) (colors t1) (dashed t1)
            (snd (add_trajectory (coordinates t2) (position t2) (label t2) (colors t2) (dashed t2)
                    st)))).
Proof.
  intros BE Orbit CO st b t1 t2 Hb Hne.
  apply Forall_app in Hne as [Hs H12].
  inversion H12 as [| ? ? N1 H2]; inversion H2 as [| ? ? N2 _]; subst.
  set (st1 := snd (add_trajectory (coordinates t1) (position t1) (label t1) (colors t1)
                     (dashed t1) st)).
  set (st2 := snd (add_trajectory (coordinates t2) (position t2) (label t2) (colors t2)
                     (dashed t2) st)).
  assert (T1 : trajectories st1 = trajectories st ++ [t1]) by apply add_trajectory_traj_t.
  assert (T2 : trajectories st2 = trajectories st ++ [t2]) by apply add_trajectory_traj_t.
  assert (B1 : attractor st1 = Some b) by (rewrite <- Hb; apply add_trajectory_attractor).
  assert (B2 : attractor st2 = Some b) by (rewrite <- Hb; apply add_trajectory_attractor).
  destruct (add_trajectory_radius_min t2 st1 b B1) as [m [Hm ->]].
  { rewrite T1; apply Forall_app; split; [apply Forall_app; split; auto | auto]. }
  destruct (add_trajectory_radius_min t1 st2 b B2) as [m' [Hm' ->]].
  { rewrite T2; apply Forall_app; split; [apply Forall_app; split; auto | auto]. }
  rewrite T1 in Hm; rewrite T2 in Hm'.
  assert (Hin : forall t, In t ((trajectories st ++ [t1]) ++ [t2]) <->
                         In t ((trajectories st ++ [t2]) ++ [t1]))
    by (intro t; rewrite !in_app_iff; simpl; tauto).
  rewrite (is_min_distance_unique m m' _ _ Hin Hm Hm'); reflexivity.
Qed.

Lemma attractor_radius_order_independent_witness :
  attractor_radius
    (snd (add_trajectory (BE := ok_backend) (CO := test_collab) [mkVec3 50000 0 0] None "b" [] false
            (snd (add_trajectory (BE := ok_backend) (CO := test_collab) [mkVec3 100000 0 0] None
                    "a" [] false earth_plotter)))) =
  attractor_radius
    (snd (add_trajectory (BE := ok_backend) (CO := test_collab) [mkVec3 100000 0 0] None "a" [] false
            (snd (add_trajectory (BE := ok_backend) (CO := test_collab) [mkVec3 50000 0 0] None
                    "b" [] false earth_plotter)))).
Proof.
  apply (attractor_radius_order_independent ok_backend unit test_collab earth_plotter Earth
           (mkTrajectory [mkVec3 100000 0 0] None "a" [] false)
           (mkTrajectory [mkVec3 50000 0 0] None "b" [] false));
    [reflexivity | repeat constructor; simpl; discriminate].
Defined.

(** ** Defaults of [plot_body_orbit] *)

(** X15: A successful [plot_body_orbit] without a color stores the colors
    [_get_colors] gives for the body's entry of [BODY_COLORS]; its label
    is [generate_label] of the epoch and [str(body)] when the label is
    omitted or empty, and of the label itself otherwise. *)
Theorem body_orbit_default_color_label :
  forall (BE : Backend) (Orbit : Type) (CO : Collaborators Orbit) body epoch lbl trail st st',
  plot_body_orbit body epoch lbl None trail st = (Ok tt, st') ->
  exists t, trajectories st' = trajectories st ++ [t] /\
    _get_colors (BODY_COLORS (body_name body)) trail = Ok (colors t) /\
    (lbl = None \/ lbl = Some ""%string -> label t = generate_label epoch (Some (body_str body))) /\
    (forall s, lbl = Some s -> s <> ""%string -> label t = generate_label epoch (Some s)).
Proof.
  intros BE Orbit CO body epoch lbl trail st st' E0; unfold plot_body_orbit in E0.
  apply bind_inv in E0 as [cs [st1 [E1 E0]]]; apply lift_inv in E1 as [Ecs ->].
  apply bind_inv in E0 as [[] [st2 [E2 E0]]].
  apply bind_inv in E0 as [period [st3 [E3 E0]]]; apply lift_inv in E3 as [_ ->].
  apply bind_inv in E0 as [st4 [st5 [E4 E0]]]; apply get_inv in E4 as [-> ->].
  destruct (set_attractor_result _ _ _ _ E2) as [T2 _].
  cbv zeta in E0.
  destruct ephem_sample as [| r0 rs]; [discriminate |].
  apply add_trajectory_result in E0.
  eexists; split; [rewrite E0, T2; reflexivity |]; simpl.
  split; [exact Ecs | split].
  - intros [-> | ->]; reflexivity.
  - intros s -> Hs; unfold py_or_label.
    apply String.eqb_neq in Hs; rewrite Hs; reflexivity.
Qed.

Lemma body_orbit_default_color_label_witness :
  exists t, trajectories (snd (plot_body_orbit (BE := ok_backend) (CO := test_collab) Mars 0 None
                                 None false (init_plotter 3 None))) =
            trajectories (init_plotter 3 None) ++ [t] /\
    _get_colors (Backend := ok_backend) (BODY_COLORS (Collaborators := test_collab) "Mars") false
      = Ok (colors t) /\
    (None = @None string \/ None = Some ""%string ->
       label t = generate_label (Collaborators := test_collab) 0 (Some "Mars"%string)) /\
    (forall s, None = Some s -> s <> ""%string ->
       label t = generate_label (Collaborators := test_collab) 0 (Some s)).
Proof.
  apply (body_orbit_default_color_label ok_backend unit test_collab Mars 0 None false
           (init_plotter 3 None)); reflexivity.
Defined.

(** X16: With [num_points = 0], [plot_body_orbit] never adds a trajectory and
    always raises: the current position [coordinates[0]] is taken from
    an empty sample before [__add_trajectory] is reached. *)
Theorem body_orbit_without_points :
  forall (BE : Backend) (Orbit : Type) (CO : Collaborators Orbit) body epoch lbl color trail st,
  num_points st = 0%nat ->
  trajectories (snd (plot_body_orbit body epoch lbl color trail st)) = trajectories st /\
  exists e, fst (plot_body_orbit body epoch lbl color trail st) = Err e.
Proof.
  intros BE Orbit CO body epoch lbl color trail st Hn.
  unfold plot_body_orbit, bind, get, lift, ret, raise.
  destruct (_get_colors _ trail) as [cs | e]; [| split; [reflexivity | eexists; reflexivity]].
  destruct (set_attractor (body_parent body) st) as [[[] | e] st2] eqn:E2;
    destruct (set_attractor_result _ _ _ _ E2) as [T2 [N2 _]];
    [| split; [exact T2 | eexists; reflexivity]].
  assert (Hs : time_range epoch (num_points st2) = fun _ => []) by (rewrite N2, Hn; reflexivity).
  destruct (mean_elements_period body epoch) as [P | e];
    [rewrite Hs |]; split; [exact T2 | eexists; reflexivity | exact T2 | eexists; reflexivity].
Qed.

Lemma body_orbit_without_points_witness :
  trajectories (snd (plot_body_orbit (BE := ok_backend) (CO := test_collab) Mars 0 None None false
                       (init_plotter 0 None))) = trajectories (init_plotter 0 None) /\
  exists e, fst (plot_body_orbit (BE := ok_backend) (CO := test_collab) Mars 0 None None false
                   (init_plotter 0 None)) = Err e.
Proof. apply body_orbit_without_points; reflexivity. Defined.

(** ** Failing plot calls *)

Section FailingPlots.

Context {BE : Backend}.
Context {Orbit : Type} {CO : Collaborators Orbit}.

(** A plot call, whatever its outcome, leaves the trajectory list as it
    was or extended by the one trajectory it built. *)
Lemma plot_call_traj (c : Call Orbit) st :
  is_plot_call c = true ->
  trajectories (snd (exec_call c st)) = trajectories st \/
  exists t, trajectories (snd (exec_call c st)) = trajectories st ++ [t] /\
            made_by (num_points st) (plane st) c t.
Proof.
  destruct c as [a | coords lbl color trail | orbit lbl color trail | body epoch lbl color trail
                 | p q w | orbit | body epoch]; try discriminate; intros _; cbn [exec_call].
  - unfold plot_trajectory, bind, get, lift, raise, ret; simpl.
    destruct (attractor st); [| left; reflexivity].
    destruct (_get_colors color trail) as [cs | e]; simpl; [| left; reflexivity].
    right; eexists; split; [apply add_trajectory_traj | simpl; auto].
  - unfold plot, bind, get, lift, raise, ret; simpl.
    destruct (_get_colors color trail) as [cs | e]; simpl; [| left; reflexivity].
    destruct (set_attractor _ st) as [[[] | e] st2] eqn:E2;
      destruct (set_attractor_result _ _ _ _ E2) as [T2 [N2 P2]]; simpl; [| left; exact T2].
    right; eexists; split; [rewrite add_trajectory_traj, T2; reflexivity |].
    simpl; rewrite N2, P2; auto.
  - unfold plot_body_orbit, bind, get, lift, raise, ret; simpl.
    destruct (_get_colors _ trail) as [cs | e]; simpl; [| left; reflexivity].
    destruct (set_attractor _ st) as [[[] | e] st2] eqn:E2;
      destruct (set_attractor_result _ _ _ _ E2) as [T2 [N2 P2]]; simpl; [| left; exact T2].
    destruct (mean_elements_period body epoch) as [P | e]; simpl; [| left; exact T2].
    destruct (ephem_sample body (time_range epoch (num_points st2) (epoch + P))
                (body_parent body) (plane st2)) as [| r0 rs] eqn:Ec; [left; exact T2 |].
    right; eexists; split; [rewrite add_trajectory_traj, T2; reflexivity |].
    simpl; split; [exists P; rewrite <- N2, <- P2, Ec; reflexivity | auto].
Qed.

Lemma set_attractor_ok_state a st :
  fst (set_attractor a st) = Ok tt -> set_attractor a st = (Ok tt, snd (set_attractor a st)).
Proof. destruct (set_attractor a st) as [r st']; simpl; intros ->; reflexivity. Qed.

End FailingPlots.

(** C3 (amended): on a plotter without attractor, [plot_trajectory]
    raises the [ValueError] and changes nothing.  A call that raises
    leaves the trajectory list unchanged, or extended by exactly the
    trajectory the call was inserting.  A failure before the append
    leaves the list unchanged: the missing attractor of
    [plot_trajectory], a raising color lookup, a conflicting attractor,
    a raising [get_mean_elements] (and an empty sample of
    [plot_body_orbit]).  Once past these steps the call appends its
    trajectory before the attractor radius is recomputed and the
    trajectory drawn, so the new trajectory is in the list whether the
    call then returns or raises. *)
Theorem plot_failure_trajectories :
  (forall (BE : Backend) (Orbit : Type) (CO : Collaborators Orbit) st coords lbl color trail,
     attractor st = None ->
     plot_trajectory coords lbl color trail st =
     (Err (ValueError "An attractor must be set up first, please use set_attractor(Major_Body) or plot(orbit)"), st)) /\
  (forall (BE : Backend) (Orbit : Type) (CO : Collaborators Orbit) (c : Call Orbit) st e st',
     exec_call c st = (Err e, st') ->
     trajectories st' = trajectories st \/
     exists t, trajectories st' = trajectories st ++ [t] /\ made_by (num_points st) (plane st) c t) /\
  (forall (BE : Backend) (Orbit : Type) (CO : Collaborators Orbit) st,
     (* failures before the append *)
     (forall coords lbl color trail e,
        _get_colors color trail = Err e ->
        exists e', plot_trajectory coords lbl color trail st = (Err e', st)) /\
     (forall orbit lbl color trail e,
        _get_colors color trail = Err e -> plot orbit lbl color trail st = (Err e, st)) /\
     (forall body epoch lbl color trail e,
        _get_colors (match color with None => BODY_COLORS (body_name body) | Some c => Some c end)
          trail = Err e ->
        plot_body_orbit body epoch lbl color trail st = (Err e, st)) /\
     (forall cur cs orbit lbl color trail,
        attractor st = Some cur -> _get_colors color trail = Ok cs ->
        py_is (Some (orbit_attractor orbit)) (Some cur) = false ->
        exists e, plot orbit lbl color trail st = (Err e, st)) /\
     (forall cur cs body epoch lbl color trail,
        attractor st = Some cur ->
        _get_colors (match color with None => BODY_COLORS (body_name body) | Some c => Some c end)
          trail = Ok cs ->
        py_is (body_parent body) (Some cur) = false ->
        exists e, plot_body_orbit body epoch lbl color trail st = (Err e, st)) /\
     (forall cs body epoch lbl color trail e,
        _get_colors (match color with None => BODY_COLORS (body_name body) | Some c => Some c end)
          trail = Ok cs ->
        fst (set_attractor (body_parent body) st) = Ok tt ->
        mean_elements_period body epoch = Err e ->
        fst (plot_body_orbit body epoch lbl color trail st) = Err e /\
        trajectories (snd (plot_body_orbit body epoch lbl color trail st)) = trajectories st) /\
     (forall cs P body epoch lbl color trail,
        _get_colors (match color with None => BODY_COLORS (body_name body) | Some c => Some c end)
          trail = Ok cs ->
        fst (set_attractor (body_parent body) st) = Ok tt ->
        mean_elements_period body epoch = Ok P ->
        ephem_sample body (time_range epoch (num_points st) (epoch + P)) (body_parent body)
          (plane st) = [] ->
        fst (plot_body_orbit body epoch lbl color trail st) = Err IndexError /\
        trajectories (snd (plot_body_orbit body epoch lbl color trail st)) = trajectories st) /\
     (* past the append, whatever the outcome *)
     (forall b cs coords lbl color trail,
        attractor st = Some b -> _get_colors color trail = Ok cs ->
        trajectories (snd (plot_trajectory coords lbl color trail st)) =
        trajectories st ++ [mkTrajectory coords None (py_str lbl) cs false]) /\
     (forall cs orbit lbl color trail,
        _get_colors color trail = Ok cs ->
        fst (set_attractor (Some (orbit_attractor orbit)) st) = Ok tt ->
        let o := orbit_change_plane orbit (plane st) in
        trajectories (snd (plot orbit lbl color trail st)) =
        trajectories st ++ [mkTrajectory (orbit_sample o (num_points st)) (Some (orbit_r o))
                              (generate_label (orbit_epoch o) lbl) cs true]) /\
     (forall cs P r0 rs body epoch lbl color trail,
        _get_colors (match color with None => BODY_COLORS (body_name body) | Some c => Some c end)
          trail = Ok cs ->
        fst (set_attractor (body_parent body) st) = Ok tt ->
        mean_elements_period body epoch = Ok P ->
        ephem_sample body (time_range epoch (num_points st) (epoch + P)) (body_parent body)
          (plane st) = r0 :: rs ->
        trajectories (snd (plot_body_orbit body epoch lbl color trail st)) =
        trajectories st ++ [mkTrajectory (r0 :: rs) (Some r0)
                              (generate_label epoch (Some (py_or_label lbl (body_str body))))
                              cs false])).
Proof.
  split; [| split].
  - intros BE Orbit CO st coords lbl color trail Hb.
    unfold plot_trajectory, bind, get; simpl; rewrite Hb; reflexivity.
  - intros BE Orbit CO c st e st' E.
    destruct (is_plot_call c) eqn:Hc.
    + pose proof (plot_call_traj c st Hc) as H; rewrite E in H; exact H.
    + left.
      assert (K : keeps same_traj (exec_call c))
        by (destruct c; try discriminate; simpl; eauto with keeps).
      pose proof (K st) as H; rewrite E in H; exact H.
  - intros BE Orbit CO st.
    split; [| split; [| split; [| split; [| split; [| split; [| split; [| split; [| split]]]]]]]].
    + intros coords lbl color trail e Hc.
      unfold plot_trajectory, bind, get, lift, raise; simpl.
      destruct (attractor st); [rewrite Hc |]; eexists; reflexivity.
    + intros; apply plot_colors_err; assumption.
    + intros; apply plot_body_orbit_colors_err; assumption.
    + intros cur cs orbit lbl color trail Hb Hc Hn.
      unfold plot, bind, lift, ret; rewrite Hc.
      rewrite (set_attractor_conflict _ st cur Hb Hn); eexists; reflexivity.
    + intros cur cs body epoch lbl color trail Hb Hc Hn.
      unfold plot_body_orbit, bind, lift, ret; rewrite Hc.
      rewrite (set_attractor_conflict _ st cur Hb Hn); eexists; reflexivity.
    + intros cs body epoch lbl color trail e Hc Hs Hm.
      apply set_attractor_ok_state in Hs.
      destruct (set_attractor_result _ _ _ _ Hs) as [T2 _].
      unfold plot_body_orbit, bind, lift, get, ret, raise; rewrite Hc, Hs, Hm; simpl.
      split; [reflexivity | exact T2].
    + intros cs P body epoch lbl color trail Hc Hs Hm He.
      apply set_attractor_ok_state in Hs.
      destruct (set_attractor_result _ _ _ _ Hs) as [T2 [N2 P2]].
      unfold plot_body_orbit, bind, lift, get, ret, raise; rewrite Hc, Hs, Hm; simpl.
      rewrite N2, P2, He; simpl; split; [reflexivity | exact T2].
    + intros b cs coords lbl color trail Hb Hc.
      rewrite (plot_trajectory_add coords lbl color trail st b cs Hb Hc).
      apply add_trajectory_traj.
    + intros cs orbit lbl color trail Hc Hs; cbv zeta.
      apply set_attractor_ok_state in Hs.
      destruct (set_attractor_result _ _ _ _ Hs) as [T2 [N2 P2]].
      unfold plot, bind, lift, get, ret; rewrite Hc, Hs; simpl.
      rewrite add_trajectory_traj, T2, N2, P2; reflexivity.
    + intros cs P r0 rs body epoch lbl color trail Hc Hs Hm He.
      apply set_attractor_ok_state in Hs.
      destruct (set_attractor_result _ _ _ _ Hs) as [T2 [N2 P2]].
      unfold plot_body_orbit, bind, lift, get, ret, raise; rewrite Hc, Hs, Hm; simpl.
      rewrite N2, P2, He; simpl.
      rewrite add_trajectory_traj, T2; reflexivity.
Qed.

Lemma plot_failure_trajectories_witness :
  plot_trajectory (BE := base_hooks) (CO := test_collab) [mkVec3 7000 0 0] None None false
    default_plotter =
  (Err (ValueError "An attractor must be set up first, please use set_attractor(Major_Body) or plot(orbit)"),
   default_plotter) /\
  (trajectories (snd empty_plot) = trajectories earth_plotter \/
   exists t, trajectories (snd empty_plot) = trajectories earth_plotter ++ [t] /\
             made_by (CO := test_collab) 150 EARTH_EQUATOR (CPlotTrajectory [] None None false) t) /\
  (exists e, plot_trajectory (BE := base_hooks) (CO := test_collab) [mkVec3 7000 0 0] None None
               false earth_plotter = (Err e, earth_plotter)) /\
  (exists e, plot (BE := ok_backend) (CO := test_collab) tt None None false mars_plotter =
               (Err e, mars_plotter)) /\
  (fst (plot_body_orbit (BE := ok_backend) (CO := no_elements_collab) Mars 0 None None false
          default_plotter) = Err HookError /\
   trajectories (snd (plot_body_orbit (BE := ok_backend) (CO := no_elements_collab) Mars 0 None
                        None false default_plotter)) = trajectories default_plotter) /\
  (fst (plot_body_orbit (BE := ok_backend) (CO := test_collab) Mars 0 None None false
          (init_plotter 0 None)) = Err IndexError /\
   trajectories (snd (plot_body_orbit (BE := ok_backend) (CO := test_collab) Mars 0 None None false
                        (init_plotter 0 None))) = trajectories (init_plotter 0 None)) /\
  trajectories (snd empty_plot) =
    trajectories earth_plotter ++ [mkTrajectory [] None (py_str None) ["#1f77b4"%string] false] /\
  trajectories (snd (plot (BE := ok_backend) (CO := test_collab) tt None None false default_plotter)) =
    trajectories default_plotter ++
      [mkTrajectory (repeat (mkVec3 7000 0 0) 150) (Some (mkVec3 7000 0 0)) "None" ["#1f77b4"%string]
         true] /\
  trajectories (snd (plot_body_orbit (BE := ok_backend) (CO := test_collab) Mars 0 None None false
                       (init_plotter 1 None))) =
    trajectories (init_plotter 1 None) ++
      [mkTrajectory [mkVec3 (1 + (0 + (0 + 687 - 0) * 0)) 0 0]
         (Some (mkVec3 (1 + (0 + (0 + 687 - 0) * 0)) 0 0)) "Mars" ["#1f77b4"%string] false].
Proof.
  destruct plot_failure_trajectories as [Hnone [Hraise Hsteps]].
  split; [| split; [| split; [| split; [| split; [| split; [| split; [| split]]]]]]].
  - apply (Hnone base_hooks unit test_collab); reflexivity.
  - apply (Hraise ok_backend unit test_collab (CPlotTrajectory [] None None false) earth_plotter
             ReductionError); reflexivity.
  - destruct (Hsteps base_hooks unit test_collab earth_plotter) as [H _].
    apply (H _ _ _ _ (NotImplementedError "")); reflexivity.
  - destruct (Hsteps ok_backend unit test_collab mars_plotter) as [_ [_ [_ [H _]]]].
    apply (H Mars ["#1f77b4"%string]); reflexivity.
  - destruct (Hsteps ok_backend unit no_elements_collab default_plotter)
      as [_ [_ [_ [_ [_ [H _]]]]]].
    apply (H ["#1f77b4"%string]); reflexivity.
  - destruct (Hsteps ok_backend unit test_collab (init_plotter 0 None))
      as [_ [_ [_ [_ [_ [_ [H _]]]]]]].
    apply (H ["#1f77b4"%string] 687); reflexivity.
  - destruct (Hsteps ok_backend unit test_collab earth_plotter)
      as [_ [_ [_ [_ [_ [_ [_ [H _]]]]]]]].
    apply (H Earth); reflexivity.
  - destruct (Hsteps ok_backend unit test_collab default_plotter)
      as [_ [_ [_ [_ [_ [_ [_ [_ [H _]]]]]]]]].
    apply (H ["#1f77b4"%string]); reflexivity.
  - destruct (Hsteps ok_backend unit test_collab (init_plotter 1 None))
      as [_ [_ [_ [_ [_ [_ [_ [_ [_ H]]]]]]]]].
    apply (H ["#1f77b4"%string] 687); reflexivity.
Defined.
